(** * KBQA query generator and rule-based skill selector

    A shallow embedding of
      - [annotators/kbqa/query_generator_base.py] (class [QueryGeneratorBase])
      - [skill_selectors/rule_based_selector/server.py] (class [RuleBasedSelector])
    together with the properties their specification states about them.

    Python objects are modelled by records, [self] by a record threaded
    through a state-and-exception monad, the external services by the fields
    of a type class, and every call to a service is appended to a trace. *)

From Stdlib Require Import ZArith QArith Ascii String.
From stdpp Require Import base tactics option list gmap strings sets.

Local Open Scope string_scope.
Local Open Scope list_scope.
Local Open Scope Z_scope.

(** ** The fragment of the Python runtime the two classes rely on *)

Module Py.

(** The exceptions that can leave the modelled code. *)
Inductive exn :=
| IndexError
| KeyError
| AttributeError
| TypeError
| ValueError
| JSONDecodeError
| ServiceError (msg : string).

(** What running a statement gives: a value, or a raised exception. *)
Inductive outcome (A : Type) :=
| Ret (a : A)
| Raise (e : exn).
Arguments Ret {A} a.
Arguments Raise {A} e.

Definition is_json_decode_error (e : exn) : bool :=
  match e with JSONDecodeError => true | _ => false end.

Definition outcome_bind {A B} (k : A -> outcome B) (o : outcome A) : outcome B :=
  match o with
  | Ret a => k a
  | Raise e => Raise e
  end.

#[global] Instance outcome_ret : MRet outcome := @Ret.
#[global] Instance outcome_mbind : MBind outcome := @outcome_bind.

(** [l[0]] *)
Definition item0 {A} (l : list A) : outcome A :=
  match l with
  | x :: _ => Ret x
  | [] => Raise IndexError
  end.

(** [l[-1]] *)
Definition item_last {A} (l : list A) : outcome A :=
  match last l with
  | Some x => Ret x
  | None => Raise IndexError
  end.

(** [l[-k]] for a literal [k >= 1]: the k-th element from the end. *)
Definition item_from_end {A} (k : nat) (l : list A) : outcome A :=
  match k with
  | O => Raise IndexError
  | S k' =>
      match reverse l !! k' with
      | Some x => Ret x
      | None => Raise IndexError
      end
  end.

(** [l[:k]]: a negative bound counts from the end of the list. *)
Definition slice_to {A} (l : list A) (k : Z) : list A :=
  if 0 <=? k then take (Z.to_nat k) l
  else take (length l - Z.to_nat (- k))%nat l.

(** [len(l)] as a Python integer. *)
Definition len {A} (l : list A) : Z := Z.of_nat (length l).

(** [s.startswith(p)] *)
Definition startswith (p s : string) : bool := String.prefix p s.

(** [p in s] on strings. *)
Fixpoint contains (p s : string) : bool :=
  String.prefix p s ||
  match s with
  | EmptyString => false
  | String _ s' => contains p s'
  end.

(** [s.replace(old, new)] for a non-empty [old]: occurrences are replaced
    from left to right and do not overlap.  [skip] counts the characters of
    an occurrence that has already been replaced. *)
Fixpoint replace_from (old new : string) (skip : nat) (s : string) : string :=
  match s with
  | EmptyString => EmptyString
  | String c s' =>
      match skip with
      | S k => replace_from old new k s'
      | O =>
          if String.prefix old s
          then new +:+ replace_from old new (String.length old - 1) s'
          else String c (replace_from old new O s')
      end
  end.

Definition replace (old new s : string) : string := replace_from old new O s.

(** [s.split(sep)[-1]] for a one-character separator. *)
Fixpoint last_segment_from (sep : ascii) (acc s : string) : string :=
  match s with
  | EmptyString => acc
  | String c s' =>
      if Ascii.eqb c sep then last_segment_from sep EmptyString s'
      else last_segment_from sep (acc +:+ String c EmptyString) s'
  end.

Definition last_segment (sep : ascii) (s : string) : string :=
  last_segment_from sep EmptyString s.

(** [s.split(sep)[0]] for a one-character separator. *)
Fixpoint first_segment (sep : ascii) (s : string) : string :=
  match s with
  | EmptyString => EmptyString
  | String c s' =>
      if Ascii.eqb c sep then EmptyString else String c (first_segment sep s')
  end.

(** [[f(x) for x in l]] where [f] may raise: the first exception leaves the
    comprehension. *)
Fixpoint map_outcome {A B} (f : A -> outcome B) (l : list A) : outcome (list B) :=
  match l with
  | [] => Ret []
  | x :: l' =>
      match f x with
      | Raise e => Raise e
      | Ret y =>
          match map_outcome f l' with
          | Raise e => Raise e
          | Ret ys => Ret (y :: ys)
          end
      end
  end.

(** [s[0]] on a string. *)
Definition first_char (s : string) : outcome string :=
  match s with
  | EmptyString => Raise IndexError
  | String c _ => Ret (String c EmptyString)
  end.

(** [list(set(l))]: the distinct elements of [l].  CPython fixes no order
    for the elements of a set; the order here is the one of [gset]. *)
Definition list_of_set `{Countable A} (l : list A) : list A :=
  elements (list_to_set l : gset A).

(** A Python [dict] whose order of insertion matters (iteration with
    [.items()]) is an association list; [d[k]] raises [KeyError]. *)
Fixpoint dict_get {V} (d : list (string * V)) (k : string) : option V :=
  match d with
  | [] => None
  | (k', v) :: d' => if String.eqb k' k then Some v else dict_get d' k
  end.

Definition dict_item {V} (d : list (string * V)) (k : string) : outcome V :=
  match dict_get d k with
  | Some v => Ret v
  | None => Raise KeyError
  end.

(** [c in s] for a one-character string [c]. *)
Fixpoint has_char (c : ascii) (s : string) : bool :=
  match s with
  | EmptyString => false
  | String c' s' => Ascii.eqb c' c || has_char c s'
  end.

End Py.
Export Py.

(** ** [QueryGeneratorBase]: the data model *)

Module Kbqa.

(** One NER type annotation of a mention, [[tag, confidence]]; the code
    reads the tag as [elem[0]]. *)
Record ner_type := {
  tag : string;
  confidence : Q;
}.

(** A candidate output is a Python list of strings and numbers, such as
    [["PHOW", how_to_content, 1.0]]. *)
Inductive cell :=
| Text (s : string)
| Number (q : Q).

Definition candidate := list cell.

(** A record of the template library (the values of [sparql_queries.json]). *)
Record Template := {
  query_template : string;
  template_num : string;
  entities_and_types_num : list Z;
  rel_dirs : list string;
  entities_and_types_select : string;
  alternative_templates : list (string * string);
}.

(** [template_types: Union[List[str], str]]; iterating over a [str] yields
    its characters. *)
Inductive template_types :=
| TypeList (l : list string)
| TypeStr (s : string).

Fixpoint chars (s : string) : list string :=
  match s with
  | EmptyString => []
  | String c s' => String c EmptyString :: chars s'
  end.

Definition iter_template_types (t : template_types) : list string :=
  match t with
  | TypeList l => l
  | TypeStr s => chars s
  end.

(** [answer_types or q_type_flag] *)
Inductive answer_info :=
| AnswerTypes (l : list string)
| TypeFlag (s : string).

Definition answer_types_or (answer_types : list string) (q_type_flag : string) : answer_info :=
  match answer_types with
  | [] => TypeFlag q_type_flag
  | _ :: _ => AnswerTypes answer_types
  end.

(** The nine values returned by the template matcher. *)
Record matcher_output := {
  entities_from_template : list string;
  types_from_template : list string;
  rels_from_template : list (list string);
  rel_dirs_from_template : list string;
  query_type_template : string;
  entity_types : list string;
  template_answer : string;
  answer_types : list string;
  template_found : string;
}.

(** An entity-linker record is a [dict]; the code reads its ["entity_ids"]
    entry with [.get("entity_ids", [])]. *)
Definition entity_info (V : Type) := list (string * V).

Definition get_entity_ids_entry {V} (info : entity_info (list V)) : list V :=
  match dict_get info "entity_ids" with
  | Some v => v
  | None => []
  end.

(** The two shapes of the entity linker's answer: a batch of records whose
    ["entity_ids"] holds one identifier list per mention, or (behind the API
    requester) a one-element batch of per-mention records. *)
Inductive el_output :=
| ElBatch (l : list (entity_info (list (list string))))
| ElWrapped (l : list (list (entity_info (list string)))).

(** The two shapes of the wiki parser's answer: relation URIs, or (behind the
    API requester) one list per URI. *)
Inductive wp_output :=
| WpFlat (l : list string)
| WpWrapped (l : list (list string)).

(** A hit of the wikiHow search. *)
Record search_hit := {
  article_id : Z;
}.

Definition query := (string * string * string)%type.

(** The attributes of [self].  [template_nums] does not exist before the
    first call of [find_candidate_answers]. *)
Record QueryGeneratorBase := {
  entities_to_leave : Z;
  rels_to_leave : Z;
  syntax_structure_known : bool;
  use_wp_api_requester : bool;
  use_el_api_requester : bool;
  use_alt_templates : bool;
  return_answers : bool;
  rank_list_0 : list string;
  rank_list_1 : list string;
  template_queries : list (string * Template);
  template_nums : option template_types;
}.

Definition with_template_nums (t : template_types) (o : QueryGeneratorBase) : QueryGeneratorBase :=
  {| entities_to_leave := entities_to_leave o;
     rels_to_leave := rels_to_leave o;
     syntax_structure_known := syntax_structure_known o;
     use_wp_api_requester := use_wp_api_requester o;
     use_el_api_requester := use_el_api_requester o;
     use_alt_templates := use_alt_templates o;
     return_answers := return_answers o;
     rank_list_0 := rank_list_0 o;
     rank_list_1 := rank_list_1 o;
     template_queries := template_queries o;
     template_nums := Some t |}.

(** Every call that leaves the class, in the order the calls are made. *)
Inductive event :=
| CallTemplateMatcher (question_sanitized : string) (entities_from_ner : list string)
| CallLinkerEntities (entities : list (list string))
    (types : list (option (list (list ner_type)))) (context : list (list string))
| CallLinkerTypes (entities : list (list string))
| CallQueryParser (question : string) (template : Template) (select : string)
    (entity_ids type_ids : list (list string))
    (rels : option (list (list string))) (answer : answer_info)
| CallWikiParser (parser_info_list : list string) (queries_list : list query)
| CallRankRels (question : string) (rels : list string)
| CallSearch (sentence : string) (limit : Z)
| CallGetHtml (article : Z).

(** The services and library functions the class calls.  The entity linker
    and the wiki parser may raise (the code has handlers for them); the other
    calls are taken to return.  [query_parser] is the method a subclass
    supplies; [paragraphs html] stands for the [.text] of every tag of
    [BeautifulSoup(html, "lxml").find_all(["p"])]. *)
Class Collaborators := {
  str_lower : string -> string;
  str_strip : string -> string;
  template_matcher : string -> list string -> matcher_output;
  linker_entities : list (list string) -> list (option (list (list ner_type))) ->
                    list (list string) -> outcome el_output;
  linker_types : list (list string) -> list (list (list (list string)));
  query_parser : string -> Template -> string -> list (list string) -> list (list string) ->
                 option (list (list string)) -> answer_info -> list candidate;
  wiki_parser : list string -> list query -> outcome wp_output;
  rank_rels : string -> list string -> list (string * Q);
  search : string -> Z -> list search_hit;
  get_html : Z -> string;
  paragraphs : string -> list string;
}.

(** ** The state-and-exception monad of the methods *)

Record state := {
  self : QueryGeneratorBase;
  trace : list event;
}.

Definition M (A : Type) : Type := state -> outcome A * state.

Definition ret {A} (a : A) : M A := fun s => (Ret a, s).

Definition bind {A B} (m : M A) (k : A -> M B) : M B :=
  fun s =>
    match m s with
    | (Ret a, s') => k a s'
    | (Raise e, s') => (Raise e, s')
    end.

Definition raise {A} (e : exn) : M A := fun s => (Raise e, s).

Definition lift {A} (o : outcome A) : M A := fun s => (o, s).

Definition get_self : M QueryGeneratorBase := fun s => (Ret (self s), s).

Definition set_template_nums (t : template_types) : M unit :=
  fun s => (Ret tt, {| self := with_template_nums t (self s); trace := trace s |}).

Definition emit (e : event) : M unit :=
  fun s => (Ret tt, {| self := self s; trace := trace s ++ [e] |}).

(** [try: body except json.decoder.JSONDecodeError: handler] *)
Definition try_except_json {A} (body handler : M A) : M A :=
  fun s =>
    match body s with
    | (Raise e, s') => if is_json_decode_error e then handler s' else (Raise e, s')
    | r => r
    end.

Fixpoint map_m {A B} (f : A -> M B) (l : list A) : M (list B) :=
  match l with
  | [] => ret []
  | x :: l' => bind (f x) (fun y => bind (map_m f l') (fun ys => ret (y :: ys)))
  end.

#[global] Instance M_ret : MRet M := @ret.
#[global] Instance M_bind : MBind M := fun A B k m => bind m k.

(** How a loop with a [return] in its body ends. *)
Inductive flow (R A : Type) :=
| Returned (r : R)
| Fell (a : A).
Arguments Returned {R A} r.
Arguments Fell {R A} a.

(** ** [QueryGeneratorBase]: the methods

    Logging and timing statements have no effect on the results and are left
    out. *)

(** Truth value of a Python list. *)
Definition truthy {A} (l : list A) : bool :=
  match l with
  | [] => false
  | _ :: _ => true
  end.

(** [__init__] before [self.load()], and [load], which reads the two rank
    files (as lines) and the template library. *)
Record config := {
  cfg_entities_to_leave : Z;
  cfg_rels_to_leave : Z;
  cfg_syntax_structure_known : bool;
  cfg_use_wp_api_requester : bool;
  cfg_use_el_api_requester : bool;
  cfg_use_alt_templates : bool;
  cfg_return_answers : bool;
}.

Definition default_config : config :=
  {| cfg_entities_to_leave := 5;
     cfg_rels_to_leave := 7;
     cfg_syntax_structure_known := false;
     cfg_use_wp_api_requester := false;
     cfg_use_el_api_requester := false;
     cfg_use_alt_templates := true;
     cfg_return_answers := false |}.

Definition tab : ascii := Ascii.ascii_of_nat 9.

Definition load (lines_1 lines_2 : list string) (queries : list (string * Template))
    (o : QueryGeneratorBase) : QueryGeneratorBase :=
  {| entities_to_leave := entities_to_leave o;
     rels_to_leave := rels_to_leave o;
     syntax_structure_known := syntax_structure_known o;
     use_wp_api_requester := use_wp_api_requester o;
     use_el_api_requester := use_el_api_requester o;
     use_alt_templates := use_alt_templates o;
     return_answers := return_answers o;
     rank_list_0 := map (first_segment tab) lines_1;
     rank_list_1 := map (first_segment tab) lines_2;
     template_queries := queries;
     template_nums := template_nums o |}.

Definition init (c : config) (lines_1 lines_2 : list string)
    (queries : list (string * Template)) : QueryGeneratorBase :=
  load lines_1 lines_2 queries
    {| entities_to_leave := cfg_entities_to_leave c;
       rels_to_leave := cfg_rels_to_leave c;
       syntax_structure_known := cfg_syntax_structure_known c;
       use_wp_api_requester := cfg_use_wp_api_requester c;
       use_el_api_requester := cfg_use_el_api_requester c;
       use_alt_templates := cfg_use_alt_templates c;
       return_answers := cfg_return_answers c;
       rank_list_0 := [];
       rank_list_1 := [];
       template_queries := [];
       template_nums := None |}.

(** [any([elem[0] != "misc" for elem in types])] *)
Definition any_not_misc (types : list ner_type) : bool :=
  existsb (fun elem => negb (tag elem =? "misc")%string) types.

Definition double_quote : string := String (Ascii.ascii_of_nat 34) EmptyString.

(** The en dash, as its three UTF-8 bytes. *)
Definition en_dash : string :=
  String (Ascii.ascii_of_nat 226)
    (String (Ascii.ascii_of_nat 128) (String (Ascii.ascii_of_nat 147) EmptyString)).

Definition replace_tokens : list (string * string) :=
  [ (" - ", "-"); (" .", ""); ("{", ""); ("}", ""); ("  ", " ");
    (double_quote, "'"); ("(", ""); (")", ""); (en_dash, "-") ].

Definition normalize_question (question : string) : string :=
  fold_left (fun q '(old, new) => Py.replace old new q) replace_tokens question.

Section Methods.
Context `{services : Collaborators}.

Definition call_template_matcher (q : string) (ents : list string) : M matcher_output :=
  emit (CallTemplateMatcher q ents);; mret (template_matcher q ents).

Definition call_linker_entities (ents : list (list string))
    (types : list (option (list (list ner_type)))) (ctx : list (list string)) : M el_output :=
  emit (CallLinkerEntities ents types ctx);; lift (linker_entities ents types ctx).

Definition call_linker_types (ents : list (list string)) : M (list (list (list (list string)))) :=
  emit (CallLinkerTypes ents);; mret (linker_types ents).

Definition call_query_parser (question : string) (template : Template) (select : string)
    (entity_ids type_ids : list (list string)) (rels : option (list (list string)))
    (answer : answer_info) : M (list candidate) :=
  emit (CallQueryParser question template select entity_ids type_ids rels answer);;
  mret (query_parser question template select entity_ids type_ids rels answer).

Definition call_wiki_parser (infos : list string) (queries : list query) : M wp_output :=
  emit (CallWikiParser infos queries);; lift (wiki_parser infos queries).

Definition call_rank_rels (question : string) (rels : list string) : M (list (string * Q)) :=
  emit (CallRankRels question rels);; mret (rank_rels question rels).

Definition call_search (sentence : string) (limit : Z) : M (list search_hit) :=
  emit (CallSearch sentence limit);; mret (search sentence limit).

Definition call_get_html (article : Z) : M string :=
  emit (CallGetHtml article);; mret (get_html article).

(** [question.lower()] where [question] may be [None]. *)
Definition lower_of (question : option string) : M string :=
  match question with
  | Some q => mret (str_lower q)
  | None => raise AttributeError
  end.

(** The second half of the ["entities"] branch of [get_entity_ids], for a
    non-empty [el_output]. *)
Definition entity_ids_of_output (api_requester : bool) (el_output : el_output)
    : outcome (list (list string)) :=
  match el_output, api_requester with
  | ElBatch l, false =>
      match map get_entity_ids_entry l with
      | [] => Ret []
      | ids :: _ => Ret ids
      end
  | ElWrapped l, true =>
      match l with
      | [] => Raise IndexError
      | infos :: _ => Ret (map get_entity_ids_entry infos)
      end
  | ElBatch l, true =>
      (* [el_output[0]] is a dict: the loop runs over its keys *)
      match l with
      | [] => Raise IndexError
      | [] :: _ => Ret []
      | (_ :: _) :: _ => Raise AttributeError
      end
  | ElWrapped l, false =>
      (* the records are lists, which have no [.get] *)
      match l with
      | [] => Ret []
      | _ :: _ => Raise AttributeError
      end
  end.

Definition el_output_truthy (o : el_output) : bool :=
  match o with
  | ElBatch l => truthy l
  | ElWrapped l => truthy l
  end.

Definition get_entity_ids (entities : list string) (what_to_link : string)
    (template_found : option string) (question : option string)
    (entity_types : option (list (list ner_type))) : M (list (list string)) :=
  let entity_ids := [] in
  entity_ids ←
    (if (what_to_link =? "entities")%string then
       let entities := map str_lower entities in
       el_output ←
         try_except_json
           (q ← lower_of question;
            call_linker_entities [entities] [entity_types] [[q]])
           (mret (ElBatch []));
       if el_output_truthy el_output then
         o ← get_self;
         lift (entity_ids_of_output (use_el_api_requester o) el_output)
       else mret entity_ids
     else mret entity_ids);
  if (what_to_link =? "types")%string then
    out ← call_linker_types [entities];
    match out with
    | [] => raise ValueError
    | entity_ids :: _ => lift (item0 entity_ids)
    end
  else mret entity_ids.

(** The two filters at the head of [sparql_template_parser]. *)
Definition matching_templates (o : QueryGeneratorBase) (nums : list string) : list Template :=
  flat_map
    (fun wanted_num =>
       map snd
         (List.filter
            (fun '(num, template) =>
               ((num =? wanted_num)%string && syntax_structure_known o)
               || ((template_num template =? wanted_num)%string
                   && negb (syntax_structure_known o)))
            (template_queries o)))
    nums.

Definition slot_counts_ok (o : QueryGeneratorBase) (entity_ids type_ids : list (list string))
    (template : Template) : bool :=
  (negb (syntax_structure_known o)
   && bool_decide ([len entity_ids; len type_ids] = entities_and_types_num template))
  || syntax_structure_known o.

Definition eligible_templates (o : QueryGeneratorBase) (nums : list string)
    (entity_ids type_ids : list (list string)) : list Template :=
  List.filter (slot_counts_ok o entity_ids type_ids) (matching_templates o nums).

(** [for template in templates: if template["rel_dirs"] == rel_dirs_from_template:
    query_template = template], starting from the empty dict ([None]). *)
Definition select_by_rel_dirs (templates : list Template)
    (rel_dirs_from_template : option (list string)) : option Template :=
  fold_left
    (fun query_template template =>
       if bool_decide (Some (rel_dirs template) = rel_dirs_from_template)
       then Some template else query_template)
    templates None.

(** The loop over the templates in the branch without relations. *)
Fixpoint try_templates (question : string) (entity_ids type_ids : list (list string))
    (rels : option (list (list string))) (answer : answer_info)
    (templates : list Template) (candidate_outputs : list candidate)
    : M (flow (list candidate) (list candidate)) :=
  match templates with
  | [] => mret (Fell candidate_outputs)
  | template :: rest =>
      let entities_and_types_select := entities_and_types_select template in
      candidate_outputs ←
        call_query_parser question template entities_and_types_select
          entity_ids type_ids rels answer;
      if truthy candidate_outputs then mret (Returned candidate_outputs)
      else try_templates question entity_ids type_ids rels answer rest candidate_outputs
  end.

(** The loop over the alternative templates. *)
Fixpoint try_alternatives (question : string) (entity_ids type_ids : list (list string))
    (rels : option (list (list string))) (answer : answer_info)
    (alternative_templates : list (string * string)) (candidate_outputs : list candidate)
    : M (flow (list candidate) (list candidate)) :=
  match alternative_templates with
  | [] => mret (Fell candidate_outputs)
  | (template_num, entities_and_types_select) :: rest =>
      o ← get_self;
      template ← lift (dict_item (template_queries o) template_num);
      candidate_outputs ←
        call_query_parser question template entities_and_types_select
          entity_ids type_ids rels answer;
      if truthy candidate_outputs then mret (Returned candidate_outputs)
      else try_alternatives question entity_ids type_ids rels answer rest candidate_outputs
  end.

Definition sparql_template_parser (question : string)
    (entity_ids type_ids : list (list string)) (answer_types : answer_info)
    (rels_from_template : option (list (list string)))
    (rel_dirs_from_template : option (list string)) : M (list candidate) :=
  let candidate_outputs := [] in
  o ← get_self;
  nums ← match template_nums o with
         | Some t => mret (iter_template_types t)
         | None => raise AttributeError
         end;
  let templates := eligible_templates o nums entity_ids type_ids in
  match templates with
  | [] => mret candidate_outputs
  | first_template :: _ =>
      match rels_from_template with
      | Some _ =>
          match select_by_rel_dirs templates rel_dirs_from_template with
          | Some query_template =>
              let entities_and_types_select := entities_and_types_select query_template in
              call_query_parser question query_template entities_and_types_select
                entity_ids type_ids rels_from_template answer_types
          | None => mret candidate_outputs
          end
      | None =>
          r ← try_templates question entity_ids type_ids rels_from_template answer_types
                templates candidate_outputs;
          match r with
          | Returned candidate_outputs => mret candidate_outputs
          | Fell candidate_outputs =>
              if negb (truthy candidate_outputs) && use_alt_templates o then
                let alternative_templates := alternative_templates first_template in
                r ← try_alternatives question entity_ids type_ids rels_from_template
                      answer_types alternative_templates candidate_outputs;
                match r with
                | Returned candidate_outputs => mret candidate_outputs
                | Fell candidate_outputs => mret candidate_outputs
                end
              else mret candidate_outputs
          end
      end
  end.

(** [if self.use_wp_api_requester and ex_rels: ex_rels = [rel[0] for rel in ex_rels]]
    followed by [ex_rels = list(set(ex_rels))]: a list of lists cannot be put
    in a set. *)
Definition unwrap_wp_output (api_requester : bool) (ex_rels : wp_output) : outcome wp_output :=
  match ex_rels, api_requester with
  | WpFlat l, true =>
      match map_outcome first_char l with
      | Ret l' => Ret (WpFlat l')
      | Raise e => Raise e
      end
  | WpWrapped l, true =>
      match map_outcome item0 l with
      | Ret l' => Ret (WpFlat l')
      | Raise e => Raise e
      end
  | _, false => Ret ex_rels
  end.

Definition set_of_wp_output (ex_rels : wp_output) : outcome (list string) :=
  match ex_rels with
  | WpFlat l => Ret (list_of_set l)
  | WpWrapped [] => Ret []
  | WpWrapped (_ :: _) => Raise TypeError
  end.

(** The set comprehension of [find_top_rels], as a list. *)
Definition wiki_queries (o : QueryGeneratorBase) (entity_ids : list (list string))
    (direction rel_type : string) : list query :=
  list_of_set
    (flat_map
       (fun entity_id =>
          map (fun entity => (entity, direction, rel_type))
            (slice_to entity_id (entities_to_leave o)))
       entity_ids).

Definition slash : ascii := Ascii.ascii_of_nat 47.

(** The first part of [find_top_rels]: the relations [ex_rels] as they stand
    after the filter [rel.startswith("P")]. *)
Definition filtered_relations (entity_ids : list (list string))
    (triplet_info : string * string * string) : M (list string) :=
  let ex_rels := [] in
  let '(direction, source, rel_type) := triplet_info in
  o ← get_self;
  ex_rels ←
    (if (source =? "wiki")%string then
       let queries_list := wiki_queries o entity_ids direction rel_type in
       let parser_info_list := replicate (length queries_list) "find_rels" in
       ex_rels ←
         try_except_json (call_wiki_parser parser_info_list queries_list)
           (mret (WpFlat ex_rels));
       ex_rels ← lift (unwrap_wp_output (use_wp_api_requester o) ex_rels);
       ex_rels ← lift (set_of_wp_output ex_rels);
       mret (map (last_segment slash) ex_rels)
     else if (source =? "rank_list_1")%string then mret (rank_list_0 o)
     else if (source =? "rank_list_2")%string then mret (rank_list_1 o)
     else mret ex_rels);
  mret (List.filter (startswith "P") ex_rels).

Definition find_top_rels (question : string) (entity_ids : list (list string))
    (triplet_info : string * string * string) : M (list (string * Q)) :=
  let rels_with_scores := [] in
  ex_rels ← filtered_relations entity_ids triplet_info;
  rels_with_scores ←
    (if truthy ex_rels then call_rank_rels question ex_rels else mret rels_with_scores);
  o ← get_self;
  mret (slice_to rels_with_scores (rels_to_leave o)).

Definition find_answer_wikihow (howto_sentence : string) : M string :=
  let tags := [] in
  search_results ← call_search howto_sentence 5;
  tags ←
    match search_results with
    | hit :: _ =>
        html ← call_get_html (article_id hit);
        mret (paragraphs html)
    | [] => mret tags
    end;
  match tags with
  | text :: _ => mret (str_strip text +:+ "@en")
  | [] => mret "Not Found"
  end.

(** The template path of [find_candidate_answers]; it returns the candidate
    outputs and the (possibly rebound) [types_from_ner]. *)
Definition template_path (question question_sanitized : string) (tm : matcher_output)
    (types_from_ner : list (list ner_type))
    : M (list candidate * list (list ner_type)) :=
  rel ← lift (item0 (rels_from_template tm));
  rel_name ← lift (item0 rel);
  if (rel_name =? "PHOW")%string then
    howto_sentence ← lift (item0 (entities_from_template tm));
    how_to_content ← find_answer_wikihow howto_sentence;
    mret ([[Text "PHOW"; Text how_to_content; Number 1]], types_from_ner)
  else
    types_from_ner ←
      (if 1 <? len types_from_ner then
         let filtered_types := List.filter any_not_misc types_from_ner in
         types ← lift (item_last filtered_types);
         mret [types]
       else mret types_from_ner);
    entity_ids ←
      get_entity_ids (entities_from_template tm) "entities" (Some (template_found tm))
        (Some question) (Some types_from_ner);
    let type_ids := [] in
    candidate_outputs ←
      sparql_template_parser question_sanitized entity_ids type_ids
        (AnswerTypes (answer_types tm)) (Some (rels_from_template tm))
        (Some (rel_dirs_from_template tm));
    mret (candidate_outputs, types_from_ner).

(** The fallback over the raw NER mentions. *)
Definition ner_path (question question_sanitized : string) (template_types_ : template_types)
    (entities_from_ner : list string) (types_from_ner : list (list ner_type))
    (answer_info_ : answer_info) : M (list candidate) :=
  let '(entities_from_ner, types_from_ner) :=
    if 1 <? len entities_from_ner then
      let filtered :=
        List.filter (fun '(entity, types) => any_not_misc types)
          (zip entities_from_ner types_from_ner) in
      match last filtered with
      | Some (entity, types) => ([entity], [types])
      | None => ([], [])
      end
    else (entities_from_ner, types_from_ner) in
  entity_ids ← get_entity_ids entities_from_ner "entities" None (Some question)
                 (Some types_from_ner);
  let type_ids := [] in
  set_template_nums template_types_;;
  o ← get_self;
  let entity_ids :=
    if negb (syntax_structure_known o) then slice_to entity_ids 3 else entity_ids in
  sparql_template_parser question_sanitized entity_ids type_ids answer_info_ None None.

Definition find_candidate_answers (question question_sanitized : string)
    (template_types_ : template_types) (entities_from_ner : list string)
    (types_from_ner : list (list ner_type)) (q_type_flag : string)
    : M (list candidate * string) :=
  let candidate_outputs := [] in
  set_template_nums template_types_;;
  let question := normalize_question question in
  tm ← call_template_matcher question_sanitized entities_from_ner;
  let answer_info_ := answer_types_or (answer_types tm) q_type_flag in
  set_template_nums (TypeList [query_type_template tm]);;
  '(candidate_outputs, types_from_ner) ←
    (if truthy (entities_from_template tm) || truthy (types_from_template tm)
     then template_path question question_sanitized tm types_from_ner
     else mret (candidate_outputs, types_from_ner));
  candidate_outputs ←
    (if negb (truthy candidate_outputs) && truthy entities_from_ner
     then ner_path question question_sanitized template_types_ entities_from_ner
            types_from_ner answer_info_
     else mret candidate_outputs);
  mret (candidate_outputs, template_answer tm).

(** *** Vocabulary for the properties of [sparql_template_parser]

    An attempt is a template together with the slot-selection spec it is
    bound with; it stands for one call of [query_parser]. *)

Definition attempt_answer (question : string) (entity_ids type_ids : list (list string))
    (rels : option (list (list string))) (answer : answer_info)
    (attempt : Template * string) : list candidate :=
  query_parser question attempt.1 attempt.2 entity_ids type_ids rels answer.

Definition attempt_event (question : string) (entity_ids type_ids : list (list string))
    (rels : option (list (list string))) (answer : answer_info)
    (attempt : Template * string) : event :=
  CallQueryParser question attempt.1 attempt.2 entity_ids type_ids rels answer.

(** A primary attempt binds a template with its own slot-selection spec; an
    alternative names a template of the library and brings its own spec. *)
Definition primary_attempt (template : Template) : Template * string :=
  (template, entities_and_types_select template).

Definition resolve_alternative (o : QueryGeneratorBase) (alt : string * string)
    : option (Template * string) :=
  match dict_get (template_queries o) alt.1 with
  | Some template => Some (template, alt.2)
  | None => None
  end.

(** Every attempt of the list is answered with the empty list. *)
Definition unanswered (question : string) (entity_ids type_ids : list (list string))
    (rels : option (list (list string))) (answer : answer_info)
    (attempts : list (Template * string)) : Prop :=
  Forall (fun y => attempt_answer question entity_ids type_ids rels answer y = []) attempts.

(** The alternatives [alts] name templates of the library, which gives the
    attempts [attempts], in the same order. *)
Definition resolved (o : QueryGeneratorBase) (alts : list (string * string))
    (attempts : list (Template * string)) : Prop :=
  Forall2 (fun alt attempt => resolve_alternative o alt = Some attempt) alts attempts.

(** The relations found from the wiki parser's answer [r]. *)
Definition relations_of_answer (api_requester : bool) (r : outcome wp_output)
    : outcome (list string) :=
  ex_rels ← match r with
            | Raise e => if is_json_decode_error e then Ret (WpFlat []) else Raise e
            | Ret out => Ret out
            end;
  ex_rels ← unwrap_wp_output api_requester ex_rels;
  ex_rels ← set_of_wp_output ex_rels;
  Ret (List.filter (startswith "P") (map (last_segment slash) ex_rels)).

(** The part of [self] that is filled by [load]. *)
Definition library (o : QueryGeneratorBase)
    : list (string * Template) * list string * list string :=
  (template_queries o, rank_list_0 o, rank_list_1 o).

(** A computation that leaves the library as it found it, also when it
    raises. *)
Definition keeps_library {A} (m : M A) : Prop :=
  forall s, library (self (m s).2) = library (self s).

(** The calls of the how-to path. *)
Definition how_to_event (e : event) : bool :=
  match e with
  | CallSearch _ _ | CallGetHtml _ => true
  | _ => false
  end.

(** What changed in the trace between two states. *)
Definition new_events (s s' : state) (events : list event) : Prop :=
  trace s' = trace s ++ events.

(** A computation all of whose runs, returning or raising, take a state to
    one related to it by [R]. *)
Definition respects {A} (R : relation state) (m : M A) : Prop :=
  forall s, R s (m s).2.

(** The trace is only appended to, and only with events that satisfy [P]. *)
Definition appends (P : event -> Prop) : relation state :=
  fun s s' => exists events, new_events s s' events /\ Forall P events.

(** No attribute of [self] is assigned. *)
Definition same_self : relation state :=
  fun s s' => self s' = self s.

(** No attribute of [self] is assigned but [template_nums], which, if
    assigned, ends as one of [allowed]. *)
Definition template_nums_among (allowed : list template_types) : relation state :=
  fun s s' =>
    self s' = self s
    \/ exists t, t ∈ allowed /\ self s' = with_template_nums t (self s).

Definition is_linker_call (e : event) : Prop :=
  match e with
  | CallLinkerEntities _ _ _ | CallLinkerTypes _ => True
  | _ => False
  end.

Definition is_relation_call (e : event) : Prop :=
  match e with
  | CallWikiParser _ _ | CallRankRels _ _ => True
  | _ => False
  end.

Definition is_how_to_call (e : event) : Prop :=
  match e with
  | CallSearch _ _ | CallGetHtml _ => True
  | _ => False
  end.

(** What [find_candidate_answers] may call once the template matcher has
    answered: the entity linker, the query parser without type identifiers,
    and the how-to search. *)
Definition follow_up_call (e : event) : Prop :=
  match e with
  | CallLinkerEntities _ _ _ | CallSearch _ _ | CallGetHtml _ => True
  | CallQueryParser _ _ _ _ type_ids _ _ => type_ids = []
  | CallTemplateMatcher _ _ | CallLinkerTypes _
  | CallWikiParser _ _ | CallRankRels _ _ => False
  end.

(** What [find_top_rels] may call for the question [question] and the
    source [source]: the wiki parser for the source ["wiki"] only, and the
    ranker with a non-empty list of identifiers that start with ["P"] and,
    when they come from the wiki parser, hold no slash. *)
Definition relation_call_ok (question source : string) (e : event) : Prop :=
  match e with
  | CallWikiParser _ _ => source = "wiki"
  | CallRankRels question' rels =>
      question' = question /\ rels <> [] /\
      Forall (fun rel => startswith "P" rel = true) rels /\
      (source = "wiki" -> Forall (fun rel => has_char slash rel = false) rels)
  | _ => False
  end.

(** The query-parser calls of the NER fallback. *)
Definition fallback_query (o : QueryGeneratorBase) (question_sanitized : string)
    (answer : answer_info) (e : event) : Prop :=
  exists template select entity_ids,
    e = CallQueryParser question_sanitized template select entity_ids [] None answer
    /\ (syntax_structure_known o = false -> (length entity_ids <= 3)%nat).

(** The NER mentions the fallback of [find_candidate_answers] links: with
    several mentions, the last one that has a type other than ["misc"]. *)
Definition mentions_to_link (entities_from_ner : list string)
    (types_from_ner : list (list ner_type)) : list string * list (list ner_type) :=
  if 1 <? len entities_from_ner then
    match last (List.filter (fun '(entity, types) => any_not_misc types)
                  (zip entities_from_ner types_from_ner)) with
    | Some (entity, types) => ([entity], [types])
    | None => ([], [])
    end
  else (entities_from_ner, types_from_ner).

End Methods.

End Kbqa.

(** ** [RuleBasedSelector] *)

Module Selector.

(** A hypothesis of a skill, as stored with a user utterance.  The two
    optional entries are read with [.get]. *)
Record hypothesis := {
  skill_name : string;
  can_continue : option string;
  weather_forecast_interaction_city_slot_requested : option bool;
}.

(** An entry of the [intent_catcher] annotation. *)
Record intent := {
  detected : Z;
}.

(** The annotations of an utterance the selector reads. *)
Record annotations := {
  intent_catcher : list (string * intent);
  cobot_topics_text : list string;
  cobot_dialogact_intents : list string;
  cobot_dialogact_topics_ : list string;
  restricted_topics : bool;
  asr_confidence : string;
}.

Record utterance := {
  text : string;
  uttr_annotations : annotations;
  hypotheses : list hypothesis;
  active_skill : option string;
}.

Record dialog := {
  utterances : list utterance;
}.

Definition sensitive_topics : gset string :=
  list_to_set ["Politics"; "Celebrities"; "Religion"; "Sex_Profanity"; "Sports";
               "News"; "Psychology"].

Definition sensitive_dialogacts : gset string :=
  list_to_set ["Opinion_RequestIntent"; "General_ChatIntent"].

Definition ignored_intents : gset string :=
  list_to_set ["opinion_request"; "yes"; "no"; "tell_me_more"; "doing_well";
               "weather_forecast_intent"].

Definition movie_cobot_dialogacts : gset string :=
  list_to_set ["Entertainment_Movies"; "Sports"; "Entertainment_Music";
               "Entertainment_General"; "Phatic"].

Definition movie_cobot_topics : gset string :=
  list_to_set ["Movies_TV"; "Celebrities"; "Art_Event"; "Entertainment";
               "Fashion"; "Games"; "Music"; "Sports"].

Definition books_cobot_dialogacts : gset string :=
  list_to_set ["Entertainment_General"; "Entertainment_Books"].

Definition books_cobot_topics : gset string :=
  list_to_set ["Entertainment"; "Literature"].

(** Truth value of a Python set. *)
Definition nonempty (s : gset string) : bool := bool_decide (s ≠ ∅).

Definition wh_words : gset string :=
  list_to_set ["what"; "when"; "where"; "which"; "who"; "whom"; "whose"; "why"; "how"].

Definition first_question_words : gset string :=
  list_to_set ["do"; "have"; "did"; "had"; "are"; "is"; "am"; "will";
               "would"; "should"; "shall"; "may"; "might"; "can"; "could"].

(** [RuleBasedSelector._is_question] *)
Definition _is_question (tokens : list string) : outcome bool :=
  first_token ← item0 tokens;
  mret (bool_decide (first_token ∈ first_question_words)
        || bool_decide (0 < size ((list_to_set tokens : gset string) ∩ wh_words))%nat).

Section Call.
(** [str.lower], and the constants of [common.constants]. *)
Variable str_lower : string -> string.
Variables CAN_NOT_CONTINUE CAN_CONTINUE MUST_CONTINUE : string.

(** The skills appended in the branch for regular utterances, before the
    check of the ASR confidence. *)
Definition regular_skills (n_utterances : nat) (about_movies about_music about_books
    about_weather : bool) (prev_user_uttr_hyp : list hypothesis) : list string :=
  let skills_for_uttr :=
    ["program_y"; "cobotqa"; "alice"; "christmas_new_year_skill"; "personal_info_skill"] in
  let skills_for_uttr :=
    if bool_decide (7 < n_utterances)%nat
    then skills_for_uttr ++ ["tfidf_retrieval"; "convert_reddit"] else skills_for_uttr in
  let skills_for_uttr :=
    if about_movies then skills_for_uttr ++ ["movie_skill"] else skills_for_uttr in
  let skills_for_uttr :=
    if about_music && bool_decide (2 < n_utterances)%nat
    then skills_for_uttr ++ ["music_tfidf_retrieval"] else skills_for_uttr in
  let skills_for_uttr :=
    if about_books then skills_for_uttr ++ ["book_skill"] else skills_for_uttr in
  let skills_for_uttr :=
    if about_weather then skills_for_uttr ++ ["weather_skill"] else skills_for_uttr in
  fold_left
    (fun skills_for_uttr hyp =>
       let c := default CAN_NOT_CONTINUE (can_continue hyp) in
       if bool_decide (c ∈ ({[CAN_CONTINUE; MUST_CONTINUE]} : gset string))
       then skills_for_uttr ++ [skill_name hyp] else skills_for_uttr)
    prev_user_uttr_hyp skills_for_uttr.

(** The rules of [__call__] for one dialog whose last utterance is
    [last_uttr]: the skills chosen before ["dummy_skill"] is appended. *)
Definition rule_skills (dialog : dialog) (last_uttr : utterance)
    (prev_user_uttr_hyp : list hypothesis) (prev_bot_uttr : option utterance)
    : list string :=
  let skills_for_uttr := [] in
  let annotations := uttr_annotations last_uttr in
  let reply := str_lower (Py.replace "'" " '" (text last_uttr)) in
  let intent_detected :=
    existsb (fun '(k, v) => detected v =? 1)
      (List.filter (fun '(k, v) => negb (bool_decide (k ∈ ignored_intents)))
         (intent_catcher annotations)) in
  let cobot_topics : gset string := list_to_set (cobot_topics_text annotations) in
  let sensitive_topics_detected :=
    existsb (fun t => bool_decide (t ∈ sensitive_topics)) (elements cobot_topics) in
  let cobot_dialogacts := cobot_dialogact_intents annotations in
  let cobot_dialogact_topics : gset string :=
    list_to_set (cobot_dialogact_topics_ annotations) in
  let sensitive_dialogacts_detected :=
    existsb (fun t => bool_decide (t ∈ sensitive_dialogacts) && Py.contains "?" reply)
      cobot_dialogacts in
  let blist_topics_detected := restricted_topics annotations in
  let about_movies :=
    nonempty ((movie_cobot_dialogacts ∩ cobot_dialogact_topics)
              ∪ (movie_cobot_topics ∩ cobot_topics)) in
  let about_music :=
    bool_decide ("Entertainment_Music" ∈ cobot_dialogact_topics)
    || bool_decide ("Music" ∈ cobot_topics) in
  let about_books :=
    nonempty ((books_cobot_dialogacts ∩ cobot_dialogact_topics)
              ∪ (books_cobot_topics ∩ cobot_topics)) in
  let n_utterances := length (utterances dialog) in
  let weather_city_slot_requested :=
    existsb
      (fun hyp => default false (weather_forecast_interaction_city_slot_requested hyp))
      (List.filter (fun hyp => (skill_name hyp =? "weather_skill")%string)
         prev_user_uttr_hyp) in
  let about_weather :=
    match dict_get (intent_catcher annotations) "weather_forecast_intent" with
    | Some v => negb (detected v =? 0)
    | None => false
    end
    || ((default "" (prev_bot_uttr ≫= active_skill) =? "weather_skill")%string
        && weather_city_slot_requested) in
  if Py.contains "/new_persona" (text last_uttr) then
    skills_for_uttr ++ ["personality_catcher"]
  else if intent_detected then
    skills_for_uttr ++ ["intent_responder"]
  else if blist_topics_detected
          || (sensitive_topics_detected && sensitive_dialogacts_detected) then
    skills_for_uttr ++ ["program_y_dangerous"; "cobotqa"]
  else
    let skills_for_uttr :=
      regular_skills n_utterances about_movies about_music about_books about_weather
        prev_user_uttr_hyp in
    if bool_decide (1 < n_utterances)%nat
       && (asr_confidence annotations =? "very_low")%string
    then ["misheard_asr"] else skills_for_uttr.

(** The body of the loop of [__call__] for one dialog: the three reads of
    [dialog['utterances']] that may raise, the rules, then
    [skills_for_uttr.append("dummy_skill")] and [list(set(skills_for_uttr))]. *)
Definition skills_for_dialog (dialog : dialog) : outcome (list string) :=
  last_uttr ← item_last (utterances dialog);
  let n_utterances := length (utterances dialog) in
  prev_user_uttr_hyp ←
    (if bool_decide (3 <= n_utterances)%nat
     then uttr ← item_from_end 3 (utterances dialog); mret (hypotheses uttr)
     else mret []);
  prev_bot_uttr ←
    (if bool_decide (2 <= n_utterances)%nat
     then uttr ← item_from_end 2 (utterances dialog); mret (Some uttr)
     else mret None);
  let skills_for_uttr := rule_skills dialog last_uttr prev_user_uttr_hyp prev_bot_uttr in
  let skills_for_uttr := skills_for_uttr ++ ["dummy_skill"] in
  mret (list_of_set skills_for_uttr).

(** [RuleBasedSelector.__call__] *)
Definition call (states_batch : list dialog) : outcome (list (list string)) :=
  map_outcome skills_for_dialog states_batch.

End Call.

End Selector.

(** ** In-memory services, for running the methods on concrete inputs *)

Module Stub.
Import Kbqa.

Definition lower_char (c : ascii) : ascii :=
  let n := Ascii.nat_of_ascii c in
  if ((65 <=? n) && (n <=? 90))%nat then Ascii.ascii_of_nat (n + 32) else c.

Fixpoint lower (s : string) : string :=
  match s with
  | EmptyString => EmptyString
  | String c s' => String (lower_char c) (lower s')
  end.

Fixpoint lstrip (s : string) : string :=
  match s with
  | String c s' => if Ascii.eqb c " " then lstrip s' else s
  | EmptyString => EmptyString
  end.

Fixpoint rstrip (s : string) : string :=
  match s with
  | EmptyString => EmptyString
  | String c s' =>
      match rstrip s' with
      | EmptyString => if Ascii.eqb c " " then EmptyString else String c EmptyString
      | r => String c r
      end
  end.

Definition strip (s : string) : string := rstrip (lstrip s).

(** Services that answer with fixed values. *)
Definition services (tm : matcher_output) (el : outcome el_output)
    (qp : Template -> string -> list candidate) (wp : outcome wp_output)
    (ranker : list string -> list (string * Q)) (hits : list search_hit)
    (paras : list string) : Collaborators :=
  {| str_lower := lower;
     str_strip := strip;
     template_matcher := fun _ _ => tm;
     linker_entities := fun _ _ _ => el;
     linker_types := fun _ => [];
     query_parser := fun _ template select _ _ _ _ => qp template select;
     wiki_parser := fun _ _ => wp;
     rank_rels := fun _ rels => ranker rels;
     search := fun _ _ => hits;
     get_html := fun _ => "<html/>";
     paragraphs := fun _ => paras |}.

Definition template (num : string) (counts : list Z) (dirs : list string)
    (alts : list (string * string)) : Template :=
  {| query_template := "SELECT ?obj WHERE { wd:E1 p:R1 ?obj }";
     template_num := num;
     entities_and_types_num := counts;
     rel_dirs := dirs;
     entities_and_types_select := "1 0";
     alternative_templates := alts |}.

Definition generator (lib : list (string * Template)) : QueryGeneratorBase :=
  init default_config ["P17	country"; "P19	place of birth"] ["P31	instance of"] lib.

Definition start (lib : list (string * Template)) (nums : option template_types) : state :=
  {| self :=
       match nums with
       | Some t => with_template_nums t (generator lib)
       | None => generator lib
       end;
     trace := [] |}.

Definition matched (entities types : list string) (rels : list (list string))
    (dirs : list string) (num : string) : matcher_output :=
  {| entities_from_template := entities;
     types_from_template := types;
     rels_from_template := rels;
     rel_dirs_from_template := dirs;
     query_type_template := num;
     entity_types := [];
     template_answer := "";
     answer_types := [];
     template_found := "" |}.

Definition misc : ner_type := {| tag := "misc"; confidence := 1 |}.
Definition per : ner_type := {| tag := "per"; confidence := 1 |}.

Definition answer : list candidate := [[Text "Q30"; Number 1]].

(** A library of two templates of type ["7"] for one entity and no type;
    the first names the second as its alternative. *)
Definition forward : Template := template "7" [1; 0] ["forw"] [("2", "alt")].
Definition backward : Template := template "7" [1; 0] ["backw"] [].
Definition two_templates : list (string * Template) := [("1", forward); ("2", backward)].

Definition ready : state := start two_templates (Some (TypeList ["7"])).

(** A generator for questions whose syntax structure is known. *)
Definition known_structure : QueryGeneratorBase :=
  init {| cfg_entities_to_leave := 5;
          cfg_rels_to_leave := 7;
          cfg_syntax_structure_known := true;
          cfg_use_wp_api_requester := false;
          cfg_use_el_api_requester := false;
          cfg_use_alt_templates := true;
          cfg_return_answers := false |}
    [] [] two_templates.
Definition fresh : state := start two_templates None.

Definition linked : outcome el_output :=
  Ret (ElBatch [[("entity_ids", [["Q76"; "Q649593"]])]]).

Definition uris : outcome wp_output :=
  Ret (WpFlat ["http://wd/prop/direct/P19"; "http://wd/entity/Q5";
               "http://wd/prop/direct/P19"]).

Definition score_all (rels : list string) : list (string * Q) :=
  map (fun rel => (rel, 1%Q)) rels.

(** Only the alternative slot-selection spec is answered. *)
Definition alternative_only (t : Template) (select : string) : list candidate :=
  if (select =? "alt")%string then answer else [].

Definition answers_all (t : Template) (select : string) : list candidate := answer.

(** A matcher that finds the template of "where was justin born". *)
Definition born_services : Collaborators :=
  services (matched ["justin"] [] [["P19"]] ["backw"] "7") linked answers_all uris
    score_all [] [].

Definition fallback_services : Collaborators :=
  services (matched [] [] [] [] "7") linked alternative_only uris score_all [] [].

(** A matcher that finds an entity mention and no relation. *)
Definition no_relation_services : Collaborators :=
  services (matched ["justin"] [] [] [] "7") linked answers_all uris score_all [] [].

(** A matcher that finds a how-to template with a type mention only. *)
Definition how_to_type_services : Collaborators :=
  services (matched [] ["city"] [["PHOW"]] [] "7") linked answers_all uris score_all
    [{| article_id := 1 |}] ["Take a deep breath."].

(** A matcher that finds the how-to template of "how to relax". *)
Definition how_to_services : Collaborators :=
  services (matched ["relax"] [] [["PHOW"]] [] "7") linked answers_all uris score_all
    [{| article_id := 1 |}] ["  Take a deep breath.  "; "Count to ten."].

(** A library whose first template names, as its alternative, a template of
    the same type for two entities. *)
Definition two_slots : Template := template "7" [2; 0] ["backw"] [].
Definition mixed_templates : list (string * Template) :=
  [("1", forward); ("2", two_slots)].
Definition mixed_ready : state := start mixed_templates (Some (TypeList ["7"])).

(** A generator configured to leave [-1] relations. *)
Definition negative_limit : state :=
  {| self :=
       init {| cfg_entities_to_leave := 5;
               cfg_rels_to_leave := -1;
               cfg_syntax_structure_known := false;
               cfg_use_wp_api_requester := false;
               cfg_use_el_api_requester := false;
               cfg_use_alt_templates := true;
               cfg_return_answers := false |}
         ["P17	country"; "P19	place of birth"] ["P31	instance of"] two_templates;
     trace := [] |}.

(** Both services answer with a payload that cannot be decoded. *)
Definition undecodable_services : Collaborators :=
  services (matched [] [] [] [] "7") (Raise JSONDecodeError) answers_all
    (Raise JSONDecodeError) score_all [] [].

End Stub.

(** A dialog of two utterances whose last one was barely heard. *)
Module SelectorStub.
Import Selector.

Definition heard (confidence : string) : annotations :=
  {| intent_catcher := [("yes", {| detected := 0 |})];
     cobot_topics_text := ["Music"];
     cobot_dialogact_intents := ["Opinion_RequestIntent"];
     cobot_dialogact_topics_ := ["Entertainment_Music"];
     restricted_topics := false;
     asr_confidence := confidence |}.

Definition said (words confidence : string) : utterance :=
  {| text := words; uttr_annotations := heard confidence; hypotheses := [];
     active_skill := None |}.

Definition barely_heard : dialog :=
  {| utterances := [said "hello" "high"; said "what music do you like" "very_low"] |}.

Definition greeting : dialog := {| utterances := [said "hello" "high"] |}.

Definition new_persona : dialog :=
  {| utterances := [said "hello" "high"; said "/new_persona pirate" "very_low"] |}.

Definition silent : dialog := {| utterances := [] |}.

End SelectorStub.

(** * Properties *)

Import Kbqa.

(** ** The Python runtime *)

Lemma slice_to_length {A} (l : list A) (k : Z) :
  0 <= k -> Z.of_nat (length (slice_to l k)) <= k.
Proof.
  intros Hk. unfold slice_to.
  destruct (0 <=? k) eqn:E; [|lia].
  rewrite length_take. lia.
Qed.

Lemma slice_to_nil {A} (k : Z) : slice_to (@nil A) k = [].
Proof. unfold slice_to. destruct (0 <=? k); by rewrite take_nil. Qed.

Lemma slice_to_sublist {A} (l : list A) (k : Z) (x : A) :
  x ∈ slice_to l k -> x ∈ l.
Proof.
  unfold slice_to.
  destruct (0 <=? k); intros (i & Hi & _)%elem_of_take; by eapply list_elem_of_lookup_2.
Qed.

Lemma list_of_set_elem `{Countable A} (l : list A) (x : A) :
  x ∈ list_of_set l <-> x ∈ l.
Proof. unfold list_of_set. rewrite elem_of_elements. apply elem_of_list_to_set. Qed.

Lemma list_of_set_nodup `{Countable A} (l : list A) : NoDup (list_of_set l).
Proof. apply NoDup_elements. Qed.

Lemma truthy_false {A} (l : list A) : truthy l = false <-> l = [].
Proof. destruct l; simpl; split; congruence. Qed.

(** ** The query generator *)

Section QueryGenerator.
Context `{services : Collaborators}.

(** Unfolds the monad, so that a method applied to a state computes. *)
Ltac unfold_monad :=
  unfold mbind, mret, M_bind, M_ret, bind, ret, raise, lift, get_self,
    set_template_nums, emit, call_query_parser, call_template_matcher,
    call_linker_entities, call_linker_types, call_wiki_parser, call_rank_rels,
    call_search, call_get_html in *.

(** *** The two retry loops *)

Lemma try_templates_run question entity_ids type_ids rels answer templates
    candidate_outputs (s : state) :
  let ans := attempt_answer question entity_ids type_ids rels answer in
  let ev := attempt_event question entity_ids type_ids rels answer in
  let attempts := map primary_attempt templates in
  (exists pre x post,
      attempts = pre ++ x :: post /\ unanswered question entity_ids type_ids rels answer pre /\ ans x <> [] /\
      try_templates question entity_ids type_ids rels answer templates candidate_outputs s
      = (Ret (Returned (ans x)),
         {| self := self s; trace := trace s ++ map ev (pre ++ [x]) |}))
  \/ (unanswered question entity_ids type_ids rels answer attempts /\
      try_templates question entity_ids type_ids rels answer templates candidate_outputs s
      = (Ret (Fell (match templates with [] => candidate_outputs | _ => [] end)),
         {| self := self s; trace := trace s ++ map ev attempts |})).
Proof.
  intros ans ev attempts. subst attempts.
  revert candidate_outputs s.
  induction templates as [|t rest IH]; intros co s.
  - right. split; [constructor|]. simpl. unfold_monad.
    rewrite app_nil_r. by destruct s.
  - simpl. unfold_monad. simpl.
    destruct (query_parser question t (entities_and_types_select t) entity_ids
                type_ids rels answer) as [|c cs] eqn:Hq.
    + simpl.
      destruct (IH [] {| self := self s;
                         trace := trace s ++ [CallQueryParser question t
                           (entities_and_types_select t) entity_ids type_ids rels answer] |})
        as [(pre & x & post & Hsplit & Hpre & Hx & Hrun) | (Hall & Hrun)].
      * left. exists (primary_attempt t :: pre), x, post.
        split; [by rewrite Hsplit|]. split; [by constructor|]. split; [done|].
        rewrite Hrun. simpl. by rewrite <- app_assoc.
      * right. split; [by constructor|].
        rewrite Hrun. simpl. rewrite <- app_assoc. simpl.
        by destruct rest.
    + left. exists [], (primary_attempt t), (map primary_attempt rest).
      split; [done|]. split; [constructor|].
      unfold ans, attempt_answer. simpl. rewrite Hq. split; [done|]. done.
Qed.

Lemma try_alternatives_run question entity_ids type_ids rels answer alts
    candidate_outputs (s : state) :
  let ans := attempt_answer question entity_ids type_ids rels answer in
  let ev := attempt_event question entity_ids type_ids rels answer in
  let run :=
    try_alternatives question entity_ids type_ids rels answer alts candidate_outputs s in
  (exists pre alt post pre' x,
      alts = pre ++ alt :: post /\ resolved (self s) pre pre' /\
      resolve_alternative (self s) alt = Some x /\
      unanswered question entity_ids type_ids rels answer pre' /\ ans x <> [] /\
      run = (Ret (Returned (ans x)),
             {| self := self s; trace := trace s ++ map ev (pre' ++ [x]) |}))
  \/ (exists attempts,
      resolved (self s) alts attempts /\
      unanswered question entity_ids type_ids rels answer attempts /\
      run = (Ret (Fell (match alts with [] => candidate_outputs | _ => [] end)),
             {| self := self s; trace := trace s ++ map ev attempts |}))
  \/ (exists pre alt post pre',
      alts = pre ++ alt :: post /\ resolved (self s) pre pre' /\
      resolve_alternative (self s) alt = None /\
      unanswered question entity_ids type_ids rels answer pre' /\
      run = (Raise KeyError,
             {| self := self s; trace := trace s ++ map ev pre' |})).
Proof.
  intros ans ev. revert candidate_outputs s.
  induction alts as [|[num select] rest IH]; intros co s run; subst run.
  - right; left. exists []. split; [constructor|]. split; [constructor|].
    simpl. unfold_monad. rewrite app_nil_r. by destruct s.
  - simpl. unfold_monad. unfold dict_item. simpl.
    destruct (dict_get (template_queries (self s)) num) as [t|] eqn:Hget.
    2:{ right; right. exists [], (num, select), rest, [].
        split; [done|]. split; [constructor|].
        unfold resolve_alternative. simpl. rewrite Hget.
        split; [done|]. split; [constructor|].
        simpl. rewrite app_nil_r. by destruct s. }
    assert (Hres : resolve_alternative (self s) (num, select) = Some (t, select)).
    { unfold resolve_alternative. simpl. by rewrite Hget. }
    simpl.
    destruct (query_parser question t select entity_ids type_ids rels answer)
      as [|c cs] eqn:Hq.
    + simpl.
      set (s1 := {| self := self s;
                    trace := trace s ++ [CallQueryParser question t select entity_ids
                                           type_ids rels answer] |}).
      destruct (IH [] s1)
        as [(pre & alt & post & pre' & x & Hsplit & Hpre & Hx & Hempty & Hans & Hrun)
           | [(attempts & Hall & Hempty & Hrun)
           | (pre & alt & post & pre' & Hsplit & Hpre & Hx & Hempty & Hrun)]].
      * left. exists ((num, select) :: pre), alt, post, ((t, select) :: pre'), x.
        split; [by rewrite Hsplit|]. split; [by constructor|]. split; [done|].
        split; [by constructor|]. split; [done|].
        rewrite Hrun. simpl. by rewrite <- app_assoc.
      * right; left. exists ((t, select) :: attempts).
        split; [by constructor|]. split; [by constructor|].
        rewrite Hrun. simpl. rewrite <- app_assoc. simpl. by destruct rest.
      * right; right. exists ((num, select) :: pre), alt, post, ((t, select) :: pre').
        split; [by rewrite Hsplit|]. split; [by constructor|]. split; [done|].
        split; [by constructor|].
        rewrite Hrun. simpl. by rewrite <- app_assoc.
    + left. exists [], (num, select), rest, [], (t, select).
      split; [done|]. split; [constructor|]. split; [done|]. split; [constructor|].
      unfold ans, attempt_answer. simpl. rewrite Hq. done.
Qed.

(** *** [sparql_template_parser] without relations from a template *)

(** C1. With [rels_from_template = None], [sparql_template_parser] binds
    the eligible templates in order; the first non-empty answer of
    [query_parser] is returned and no later template is bound.  The
    alternative templates (those of the first eligible template) are bound
    only when every eligible template was answered with the empty list and
    [use_alt_templates] is set; they are bound in their declared order, and
    the first non-empty answer is returned.  An alternative whose number is
    not in the library ends the call with [KeyError]. *)
Theorem parser_tries_templates_then_alternatives question entity_ids type_ids answer
    rel_dirs (s : state) nums :
  template_nums (self s) = Some nums ->
  let o := self s in
  let templates := eligible_templates o (iter_template_types nums) entity_ids type_ids in
  let primary := map primary_attempt templates in
  let alts :=
    match templates with
    | first_template :: _ => alternative_templates first_template
    | [] => []
    end in
  let ans := attempt_answer question entity_ids type_ids None answer in
  let ev := attempt_event question entity_ids type_ids None answer in
  let empty := unanswered question entity_ids type_ids None answer in
  let run := sparql_template_parser question entity_ids type_ids answer None rel_dirs s in
  self run.2 = self s /\
  ((* an eligible template is answered: the first one that is, and the last one tried *)
   (exists pre x post,
       primary = pre ++ x :: post /\ empty pre /\ ans x <> [] /\
       run.1 = Ret (ans x) /\ new_events s run.2 (map ev (pre ++ [x])))
   \/
   (* no eligible template is answered, and no alternative is tried *)
   (empty primary /\ (primary = [] \/ use_alt_templates o = false) /\
    run.1 = Ret [] /\ new_events s run.2 (map ev primary))
   \/
   (* no eligible template is answered, and the alternatives are tried in order *)
   (empty primary /\ primary <> [] /\ use_alt_templates o = true /\
    ((exists pre alt post pre' x,
         alts = pre ++ alt :: post /\ resolved o pre pre' /\
         resolve_alternative o alt = Some x /\ empty pre' /\ ans x <> [] /\
         run.1 = Ret (ans x) /\ new_events s run.2 (map ev (primary ++ pre' ++ [x])))
     \/
     (exists attempts,
         resolved o alts attempts /\ empty attempts /\
         run.1 = Ret [] /\ new_events s run.2 (map ev (primary ++ attempts)))
     \/
     (exists pre alt post pre',
         alts = pre ++ alt :: post /\ resolved o pre pre' /\
         resolve_alternative o alt = None /\ empty pre' /\
         run.1 = Raise KeyError /\ new_events s run.2 (map ev (primary ++ pre')))))).
Proof.
  intros Hnums o templates primary alts ans ev empty run.
  subst run. unfold sparql_template_parser. unfold_monad. simpl.
  rewrite Hnums. simpl. fold o. fold templates.
  destruct templates as [|first_template rest] eqn:Ht.
  { simpl. split; [done|]. right; left.
    split; [constructor|]. split; [by left|]. split; [done|].
    unfold new_events. by rewrite app_nil_r. }
  destruct (try_templates_run question entity_ids type_ids None answer
              (first_template :: rest) [] s)
    as [(pre & x & post & Hsplit & Hpre & Hx & Hrun) | (Hall & Hrun)].
  - rewrite Hrun. simpl. split; [done|]. left.
    exists pre, x, post. done.
  - rewrite Hrun. simpl.
    destruct (use_alt_templates o) eqn:Halt; simpl.
    2:{ split; [done|]. right; left. split; [done|]. split; [by right|]. done. }
    set (s1 := {| self := self s;
                  trace := trace s ++ map (attempt_event question entity_ids type_ids
                                             None answer)
                             (map primary_attempt (first_template :: rest)) |}).
    destruct (try_alternatives_run question entity_ids type_ids None answer
                (alternative_templates first_template) [] s1)
      as [(pre & alt & post & pre' & x & Hsplit & Hpre & Hx & Hempty & Hans & Hrun')
         | [(attempts & Hres & Hempty & Hrun')
         | (pre & alt & post & pre' & Hsplit & Hpre & Hx & Hempty & Hrun')]];
      subst s1; simpl in *; rewrite Hrun'; simpl; (split; [done|]); right; right;
      (split; [done|]); (split; [done|]); (split; [done|]).
    + left. exists pre, alt, post, pre', x.
      repeat (split; [done|]). unfold new_events. simpl.
      by rewrite ?map_app, <- ?app_assoc.
    + right; left. exists attempts.
      repeat (split; [done|]). split.
      * by destruct (alternative_templates first_template).
      * unfold new_events. simpl. by rewrite ?map_app, <- ?app_assoc.
    + right; right. exists pre, alt, post, pre'.
      repeat (split; [done|]). unfold new_events. simpl.
      by rewrite ?map_app, <- ?app_assoc.
Qed.

(** *** [sparql_template_parser] with relations from a template *)

Lemma select_by_rel_dirs_from (templates : list Template) (signature : list string)
    (chosen : option Template) :
  fold_left
    (fun query_template template =>
       if bool_decide (Some (rel_dirs template) = Some signature)
       then Some template else query_template)
    templates chosen
  = match last (List.filter (fun t => bool_decide (rel_dirs t = signature)) templates) with
    | Some t => Some t
    | None => chosen
    end.
Proof.
  revert chosen. induction templates as [|t rest IH]; intros chosen; [done|].
  simpl. rewrite IH.
  rewrite (bool_decide_ext (Some (rel_dirs t) = Some signature) (rel_dirs t = signature))
    by (split; congruence).
  destruct (bool_decide (rel_dirs t = signature)); [|done].
  destruct (List.filter _ rest) as [|t' rest'] eqn:Hf; [done|].
  change (last (t :: t' :: rest')) with (last (t' :: rest')).
  destruct (last (t' :: rest')) eqn:Hlast; [done|].
  by apply last_None in Hlast.
Qed.

Lemma select_by_rel_dirs_last (templates : list Template) (signature : list string) :
  select_by_rel_dirs templates (Some signature)
  = last (List.filter (fun t => bool_decide (rel_dirs t = signature)) templates).
Proof.
  unfold select_by_rel_dirs. rewrite select_by_rel_dirs_from.
  by destruct (last _).
Qed.

(** C2. With relations from a template ([rels_from_template] is not
    [None]) and a relation-direction signature supplied,
    [sparql_template_parser] calls [query_parser] at most once: with the
    (last) eligible template whose [rel_dirs] equal the signature, whose
    answer it returns.  When no eligible template has that signature, it
    returns the empty list and calls nothing, alternatives included. *)
Theorem parser_selects_by_relation_directions question entity_ids type_ids answer rels
    signature (s : state) nums :
  template_nums (self s) = Some nums ->
  let o := self s in
  let templates := eligible_templates o (iter_template_types nums) entity_ids type_ids in
  let ans := attempt_answer question entity_ids type_ids (Some rels) answer in
  let ev := attempt_event question entity_ids type_ids (Some rels) answer in
  let run :=
    sparql_template_parser question entity_ids type_ids answer (Some rels)
      (Some signature) s in
  self run.2 = self s /\
  ((exists t,
       last (List.filter (fun t => bool_decide (rel_dirs t = signature)) templates) = Some t /\
       t ∈ templates /\ rel_dirs t = signature /\
       run.1 = Ret (ans (primary_attempt t)) /\
       new_events s run.2 [ev (primary_attempt t)])
   \/
   ((forall t, t ∈ templates -> rel_dirs t <> signature) /\
    run.1 = Ret [] /\ new_events s run.2 [])).
Proof.
  intros Hnums o templates ans ev run. subst run.
  unfold sparql_template_parser. unfold_monad. simpl.
  rewrite Hnums. simpl. fold o. fold templates.
  destruct templates as [|first_template rest] eqn:Ht.
  { simpl. split; [done|]. right. split; [by intros t ?%elem_of_nil|].
    split; [done|]. unfold new_events. by rewrite app_nil_r. }
  rewrite select_by_rel_dirs_last.
  destruct (last _) as [t|] eqn:Hlast.
  - simpl. split; [done|]. left. exists t.
    assert (Hin : In t (List.filter (fun t => bool_decide (rel_dirs t = signature))
                          (first_template :: rest))).
    { apply list_elem_of_In. by apply last_Some_elem_of. }
    apply filter_In in Hin as [Hin Hdirs].
    apply bool_decide_eq_true in Hdirs.
    split; [done|]. split; [by apply list_elem_of_In|]. done.
  - simpl. split; [done|]. right.
    apply last_None in Hlast.
    split; [|split; [done|unfold new_events; by rewrite app_nil_r]].
    intros t Hin Hdirs.
    assert (Hf : In t (List.filter (fun t => bool_decide (rel_dirs t = signature))
                         (first_template :: rest))).
    { apply filter_In. split; [by apply list_elem_of_In|by apply bool_decide_eq_true]. }
    rewrite Hlast in Hf. destruct Hf.
Qed.

(** *** The slot-count filter *)

Lemma matching_templates_elem (o : QueryGeneratorBase) (nums : list string)
    (template : Template) :
  template ∈ matching_templates o nums <->
  exists wanted num,
    wanted ∈ nums /\ (num, template) ∈ template_queries o /\
    (if syntax_structure_known o then num = wanted else template_num template = wanted).
Proof.
  unfold matching_templates. rewrite list_elem_of_In, in_flat_map. split.
  - intros (wanted & Hwanted & Hin).
    apply in_map_iff in Hin as ([num t] & Heq & Hin). simpl in Heq. subst t.
    apply filter_In in Hin as [Hin Hcond].
    exists wanted, num. rewrite !list_elem_of_In. split; [done|]. split; [done|].
    destruct (syntax_structure_known o); simpl in Hcond.
    + rewrite andb_true_r, andb_false_r, orb_false_r in Hcond.
      by apply String.eqb_eq.
    + rewrite andb_true_r, andb_false_r in Hcond. simpl in Hcond.
      by apply String.eqb_eq.
  - intros (wanted & num & Hwanted & Hin & Hcond).
    exists wanted. rewrite <- list_elem_of_In. split; [done|].
    apply in_map_iff. exists (num, template). split; [done|].
    apply filter_In. rewrite <- list_elem_of_In. split; [done|].
    destruct (syntax_structure_known o); subst; simpl.
    + by rewrite String.eqb_refl.
    + rewrite String.eqb_refl, andb_false_r. done.
Qed.

(** A template is eligible exactly when the library holds it under a
    requested number (the key of the entry when the syntax structure is
    known, its [template_num] otherwise) and, unless the syntax structure is
    known, its [entities_and_types_num] equals
    [[len(entity_ids), len(type_ids)]]. *)
Lemma eligible_iff_slot_counts (o : QueryGeneratorBase) (nums : list string)
    (entity_ids type_ids : list (list string)) (template : Template) :
  template ∈ eligible_templates o nums entity_ids type_ids <->
  (exists wanted num,
      wanted ∈ nums /\ (num, template) ∈ template_queries o /\
      (if syntax_structure_known o then num = wanted else template_num template = wanted))
  /\ (syntax_structure_known o = true
      \/ [len entity_ids; len type_ids] = entities_and_types_num template).
Proof.
  unfold eligible_templates.
  rewrite list_elem_of_In, filter_In, <- list_elem_of_In, matching_templates_elem.
  unfold slot_counts_ok.
  destruct (syntax_structure_known o); simpl.
  - split; intros [H _]; (split; [done|]); [by left|done].
  - rewrite ?orb_false_r, bool_decide_eq_true. split; intros [H Hc]; (split; [done|]).
    + by right.
    + by destruct Hc.
Qed.

(** *** [find_top_rels] *)

Lemma list_of_set_nil `{Countable A} : list_of_set (@nil A) = [].
Proof. unfold list_of_set. simpl. apply elements_empty. Qed.

Lemma list_of_set_length `{Countable A} (l : list A) :
  (length (list_of_set l) <= length l)%nat.
Proof.
  apply submseteq_length, NoDup_submseteq; [apply list_of_set_nodup|].
  intros x. by rewrite list_of_set_elem.
Qed.

Lemma filtered_relations_wiki entity_ids direction rel_type (s : state) :
  let queries_list := wiki_queries (self s) entity_ids direction rel_type in
  let infos := replicate (length queries_list) "find_rels" in
  filtered_relations entity_ids (direction, "wiki", rel_type) s
  = (relations_of_answer (use_wp_api_requester (self s)) (wiki_parser infos queries_list),
     {| self := self s; trace := trace s ++ [CallWikiParser infos queries_list] |}).
Proof.
  intros queries_list infos.
  unfold filtered_relations, relations_of_answer, try_except_json. unfold_monad. simpl.
  fold queries_list. fold infos.
  destruct (wiki_parser infos queries_list) as [out|e]; simpl.
  - destruct (unwrap_wp_output (use_wp_api_requester (self s)) out) as [out'|e];
      simpl; [|done].
    by destruct (set_of_wp_output out').
  - destruct (is_json_decode_error e); simpl; [|done].
    by destruct (use_wp_api_requester (self s)).
Qed.

Lemma filtered_relations_static entity_ids direction source rel_type (s : state) :
  source <> "wiki" ->
  filtered_relations entity_ids (direction, source, rel_type) s
  = (Ret (List.filter (startswith "P")
            (if (source =? "rank_list_1")%string then rank_list_0 (self s)
             else if (source =? "rank_list_2")%string then rank_list_1 (self s)
             else [])),
     s).
Proof.
  intros Hsource. unfold filtered_relations. unfold_monad. simpl.
  destruct (String.eqb_spec source "wiki") as [|_]; [done|].
  destruct (source =? "rank_list_1")%string; [done|].
  by destruct (source =? "rank_list_2")%string.
Qed.

Lemma find_top_rels_run question entity_ids triplet_info (s : state) :
  find_top_rels question entity_ids triplet_info s
  = match filtered_relations entity_ids triplet_info s with
    | (Ret ex_rels, s') =>
        if truthy ex_rels
        then (Ret (slice_to (rank_rels question ex_rels) (rels_to_leave (self s'))),
              {| self := self s'; trace := trace s' ++ [CallRankRels question ex_rels] |})
        else (Ret [], s')
    | (Raise e, s') => (Raise e, s')
    end.
Proof.
  unfold find_top_rels. unfold_monad.
  destruct (filtered_relations entity_ids triplet_info s) as [[ex_rels|e] s']; [|done].
  destruct (truthy ex_rels); simpl; [done|].
  by rewrite slice_to_nil.
Qed.

Lemma flat_map_length_le {A B} (f : A -> list B) (l : list A) (k : nat) :
  (forall x, length (f x) <= k)%nat -> (length (flat_map f l) <= length l * k)%nat.
Proof.
  intros Hf. induction l as [|x l IH]; simpl; [lia|].
  rewrite length_app. specialize (Hf x). lia.
Qed.

Lemma wiki_queries_elem (o : QueryGeneratorBase) entity_ids direction rel_type
    (entity d r : string) :
  (entity, d, r) ∈ wiki_queries o entity_ids direction rel_type <->
  d = direction /\ r = rel_type /\
  exists entity_id,
    entity_id ∈ entity_ids /\ entity ∈ slice_to entity_id (entities_to_leave o).
Proof.
  unfold wiki_queries. rewrite list_of_set_elem, list_elem_of_In, in_flat_map. split.
  - intros (entity_id & Hid & Hin).
    apply in_map_iff in Hin as (entity' & Heq & Hin). injection Heq as -> -> ->.
    split; [done|]. split; [done|]. exists entity_id.
    by rewrite !list_elem_of_In.
  - intros (-> & -> & entity_id & Hid & Hin). exists entity_id.
    rewrite <- list_elem_of_In. split; [done|].
    apply in_map_iff. exists entity. by rewrite <- list_elem_of_In.
Qed.

Lemma wiki_queries_length (o : QueryGeneratorBase) entity_ids direction rel_type :
  0 <= entities_to_leave o ->
  len (wiki_queries o entity_ids direction rel_type)
  <= len entity_ids * entities_to_leave o.
Proof.
  intros Hk. unfold wiki_queries, len.
  etransitivity; [apply inj_le, list_of_set_length|].
  etransitivity;
    [apply inj_le, (flat_map_length_le _ _ (Z.to_nat (entities_to_leave o)))|].
  - intros entity_id. rewrite length_map.
    pose proof (slice_to_length entity_id _ Hk). lia.
  - lia.
Qed.

(** C5. [find_top_rels] raises only when the handling of the wiki
    parser's answer raises; when [rels_to_leave] is not negative it returns
    at most [rels_to_leave] relations.  Whatever the limits, it returns the
    empty list when no relation is left by the filter on the prefix ["P"],
    and the wiki parser is asked once, about the identifiers in
    [entity_id[:entities_to_leave]] of each mention and no others; these are
    at most [entities_to_leave] per mention when that limit is not
    negative. *)
Theorem find_top_rels_bounded question entity_ids direction source rel_type (s : state) :
  let o := self s in
  let triplet_info := (direction, source, rel_type) in
  let queries_list := wiki_queries o entity_ids direction rel_type in
  let infos := replicate (length queries_list) "find_rels" in
  let run := find_top_rels question entity_ids triplet_info s in
  match run.1 with
  | Ret rels_with_scores =>
      0 <= rels_to_leave o -> len rels_with_scores <= rels_to_leave o
  | Raise e =>
      source = "wiki" /\
      relations_of_answer (use_wp_api_requester o) (wiki_parser infos queries_list) = Raise e
  end
  /\ (forall s', filtered_relations entity_ids triplet_info s = (Ret [], s') ->
                 run = (Ret [], s'))
  /\ (forall events infos' queries,
         new_events s run.2 events -> CallWikiParser infos' queries ∈ events ->
         source = "wiki" /\ queries = queries_list)
  /\ NoDup queries_list
  /\ (forall entity d r,
         (entity, d, r) ∈ queries_list <->
         d = direction /\ r = rel_type /\
         exists entity_id,
           entity_id ∈ entity_ids /\ entity ∈ slice_to entity_id (entities_to_leave o))
  /\ (0 <= entities_to_leave o ->
      (forall entity_id : list string,
          len (slice_to entity_id (entities_to_leave o)) <= entities_to_leave o)
      /\ len queries_list <= len entity_ids * entities_to_leave o).
Proof.
  intros o triplet_info queries_list infos run.
  assert (Hrun : run = find_top_rels question entity_ids triplet_info s) by done.
  rewrite find_top_rels_run in Hrun.
  split; [|split; [|split; [|split; [|split]]]].
  - destruct (decide (source = "wiki")) as [->|Hsource].
    + subst triplet_info. rewrite filtered_relations_wiki in Hrun.
      fold o queries_list infos in Hrun.
      destruct (relations_of_answer _ _) as [ex_rels|e]; [|by rewrite Hrun].
      destruct (truthy ex_rels); rewrite Hrun; simpl.
      * intros Hrels. by apply slice_to_length.
      * intros Hrels. unfold len, o in *. simpl. lia.
    + subst triplet_info. rewrite filtered_relations_static in Hrun by done.
      destruct (truthy _); rewrite Hrun; simpl.
      * intros Hrels. by apply slice_to_length.
      * intros Hrels. unfold len, o in *. simpl. lia.
  - intros s' Hf. by rewrite Hrun, Hf.
  - intros events infos' queries Hev Hin. unfold new_events in Hev.
    destruct (decide (source = "wiki")) as [->|Hsource].
    + subst triplet_info. rewrite filtered_relations_wiki in Hrun.
      fold o queries_list infos in Hrun. split; [done|].
      assert (Hsub : events = [CallWikiParser infos queries_list]
                     \/ exists ex, events = [CallWikiParser infos queries_list;
                                             CallRankRels question ex]).
      { destruct (relations_of_answer _ _) as [ex_rels|e].
        - destruct (truthy ex_rels); rewrite Hrun in Hev; simpl in Hev.
          + right. exists ex_rels. rewrite <- app_assoc in Hev.
            by apply app_inv_head in Hev.
          + left. by apply app_inv_head in Hev.
        - rewrite Hrun in Hev. simpl in Hev. left. by apply app_inv_head in Hev. }
      destruct Hsub as [->|[ex ->]].
      * apply list_elem_of_singleton in Hin. by injection Hin.
      * apply elem_of_cons in Hin as [Hin|Hin]; [by injection Hin|].
        by apply list_elem_of_singleton in Hin.
    + subst triplet_info. rewrite filtered_relations_static in Hrun by done.
      destruct (truthy _); rewrite Hrun in Hev; simpl in Hev.
      * apply app_inv_head in Hev. subst events.
        by apply list_elem_of_singleton in Hin.
      * rewrite <- (app_nil_r (trace s)) in Hev at 1.
        apply app_inv_head in Hev. subst events. by apply elem_of_nil in Hin.
  - apply list_of_set_nodup.
  - intros entity d r. apply wiki_queries_elem.
  - intros Hents. split.
    + intros entity_id. by apply slice_to_length.
    + by apply wiki_queries_length.
Qed.

(** *** Decode failures of the two services *)

Lemma relations_of_decode_error (api_requester : bool) :
  relations_of_answer api_requester (Raise JSONDecodeError) = Ret [].
Proof.
  unfold relations_of_answer, unwrap_wp_output, set_of_wp_output.
  destruct api_requester; simpl; by rewrite list_of_set_nil.
Qed.

(** C7. A [JSONDecodeError] raised by the entity linker is caught in
    [get_entity_ids], which returns the empty list; one raised by the wiki
    parser is caught in [find_top_rels], which goes on with no relation,
    does not call the ranker and returns the empty list. *)
Theorem decode_errors_are_absorbed (s : state) :
  (forall entities template_found question entity_types,
      let entities' := map str_lower entities in
      let context := [[str_lower question]] in
      linker_entities [entities'] [entity_types] context = Raise JSONDecodeError ->
      get_entity_ids entities "entities" template_found (Some question) entity_types s
      = (Ret [],
         {| self := self s;
            trace := trace s ++ [CallLinkerEntities [entities'] [entity_types] context] |}))
  /\
  (forall question entity_ids direction rel_type,
      let queries_list := wiki_queries (self s) entity_ids direction rel_type in
      let infos := replicate (length queries_list) "find_rels" in
      wiki_parser infos queries_list = Raise JSONDecodeError ->
      find_top_rels question entity_ids (direction, "wiki", rel_type) s
      = (Ret [],
         {| self := self s; trace := trace s ++ [CallWikiParser infos queries_list] |})).
Proof.
  split.
  - intros entities template_found question entity_types entities' context Hraise.
    unfold get_entity_ids, try_except_json, lower_of. unfold_monad. simpl.
    fold entities' context. by rewrite Hraise.
  - intros question entity_ids direction rel_type queries_list infos Hraise.
    rewrite find_top_rels_run, filtered_relations_wiki.
    fold queries_list infos. rewrite Hraise.
    by rewrite relations_of_decode_error.
Qed.

(** *** The library is read-only *)

Lemma keeps_ret {A} (a : A) : keeps_library (mret a : M A).
Proof. by intros s. Qed.

Lemma keeps_raise {A} (e : exn) : keeps_library (raise e : M A).
Proof. by intros s. Qed.

Lemma keeps_lift {A} (o : outcome A) : keeps_library (lift o).
Proof. by intros s. Qed.

Lemma keeps_get_self : keeps_library get_self.
Proof. by intros s. Qed.

Lemma keeps_emit (e : event) : keeps_library (emit e).
Proof. by intros s. Qed.

Lemma keeps_set_template_nums (t : template_types) : keeps_library (set_template_nums t).
Proof. by intros s. Qed.

Lemma keeps_bind {A B} (m : M A) (k : A -> M B) :
  keeps_library m -> (forall a, keeps_library (k a)) -> keeps_library (mbind k m).
Proof.
  intros Hm Hk s. unfold mbind, M_bind, bind.
  specialize (Hm s). destruct (m s) as [[a|e] s1]; simpl in *; [|done].
  by rewrite Hk.
Qed.

Lemma keeps_try_except_json {A} (body handler : M A) :
  keeps_library body -> keeps_library handler -> keeps_library (try_except_json body handler).
Proof.
  intros Hb Hh s. unfold try_except_json.
  specialize (Hb s). destruct (body s) as [[a|e] s1]; simpl in *; [done|].
  destruct (is_json_decode_error e); simpl; [|done].
  by rewrite Hh.
Qed.

(** Splits a computation along its binds and branches; [known] closes the
    calls of methods that were dealt with before. *)
Ltac keeps_with known :=
  repeat first
    [ apply keeps_ret | apply keeps_raise | apply keeps_lift | apply keeps_get_self
    | apply keeps_emit | apply keeps_set_template_nums
    | known
    | apply keeps_bind; [|intros ?]
    | apply keeps_try_except_json
    | match goal with
      | |- keeps_library (if ?b then _ else _) => destruct b
      | |- keeps_library (match ?x with _ => _ end) => destruct x
      end ].

Ltac keeps := keeps_with fail.

Lemma keeps_call_query_parser question template select entity_ids type_ids rels answer :
  keeps_library
    (call_query_parser question template select entity_ids type_ids rels answer).
Proof. unfold call_query_parser. keeps. Qed.

Lemma keeps_try_templates question entity_ids type_ids rels answer templates
    candidate_outputs :
  keeps_library
    (try_templates question entity_ids type_ids rels answer templates candidate_outputs).
Proof.
  revert candidate_outputs. induction templates as [|t rest IH]; intros co; simpl.
  - keeps.
  - keeps_with ltac:(first [apply keeps_call_query_parser | apply IH]).
Qed.

Lemma keeps_try_alternatives question entity_ids type_ids rels answer alts
    candidate_outputs :
  keeps_library
    (try_alternatives question entity_ids type_ids rels answer alts candidate_outputs).
Proof.
  revert candidate_outputs. induction alts as [|[num select] rest IH]; intros co; simpl.
  - keeps.
  - keeps_with ltac:(first [apply keeps_call_query_parser | apply IH]).
Qed.

Lemma keeps_sparql_template_parser question entity_ids type_ids answer rels rel_dirs :
  keeps_library
    (sparql_template_parser question entity_ids type_ids answer rels rel_dirs).
Proof.
  unfold sparql_template_parser.
  keeps_with ltac:(first [ apply keeps_call_query_parser | apply keeps_try_templates
                         | apply keeps_try_alternatives ]).
Qed.

Lemma keeps_get_entity_ids entities what_to_link template_found question entity_types :
  keeps_library (get_entity_ids entities what_to_link template_found question entity_types).
Proof.
  unfold get_entity_ids, lower_of, call_linker_entities, call_linker_types. keeps.
Qed.

Lemma keeps_filtered_relations entity_ids triplet_info :
  keeps_library (filtered_relations entity_ids triplet_info).
Proof.
  unfold filtered_relations, call_wiki_parser.
  destruct triplet_info as [[direction source] rel_type]. keeps.
Qed.

Lemma keeps_find_top_rels question entity_ids triplet_info :
  keeps_library (find_top_rels question entity_ids triplet_info).
Proof.
  unfold find_top_rels, call_rank_rels.
  keeps_with ltac:(apply keeps_filtered_relations).
Qed.

Lemma keeps_find_answer_wikihow howto_sentence :
  keeps_library (find_answer_wikihow howto_sentence).
Proof. unfold find_answer_wikihow, call_search, call_get_html. keeps. Qed.

Lemma keeps_find_candidate_answers question question_sanitized template_types_
    entities_from_ner types_from_ner q_type_flag :
  keeps_library
    (find_candidate_answers question question_sanitized template_types_
       entities_from_ner types_from_ner q_type_flag).
Proof.
  unfold find_candidate_answers, template_path, ner_path, call_template_matcher.
  keeps_with ltac:(first [ apply keeps_find_answer_wikihow | apply keeps_get_entity_ids
                         | apply keeps_sparql_template_parser ]).
Qed.

(** C9. The template library and the two rank lists are what [load] put
    there: [find_candidate_answers], [sparql_template_parser],
    [get_entity_ids] and [find_top_rels] leave them unchanged, whether they
    return or raise. *)
Theorem library_is_read_only (s : state) :
  (forall question question_sanitized template_types_ entities_from_ner types_from_ner
          q_type_flag,
      library (self (find_candidate_answers question question_sanitized template_types_
                       entities_from_ner types_from_ner q_type_flag s).2)
      = library (self s))
  /\ (forall question entity_ids type_ids answer rels rel_dirs,
         library (self (sparql_template_parser question entity_ids type_ids answer rels
                          rel_dirs s).2)
         = library (self s))
  /\ (forall entities what_to_link template_found question entity_types,
         library (self (get_entity_ids entities what_to_link template_found question
                          entity_types s).2)
         = library (self s))
  /\ (forall question entity_ids triplet_info,
         library (self (find_top_rels question entity_ids triplet_info s).2)
         = library (self s))
  /\ (forall c lines_1 lines_2 queries,
         library (init c lines_1 lines_2 queries)
         = (queries, map (first_segment tab) lines_1, map (first_segment tab) lines_2)).
Proof.
  split; [|split; [|split; [|split]]].
  - intros. apply keeps_find_candidate_answers.
  - intros. apply keeps_sparql_template_parser.
  - intros. apply keeps_get_entity_ids.
  - intros. apply keeps_find_top_rels.
  - done.
Qed.

(** *** [find_candidate_answers] *)

(** C6. When the template matcher yields neither entity nor type mentions
    and there is no NER entity, [find_candidate_answers] calls nothing but
    the matcher and returns no candidate output, together with the matcher's
    own answer text, which is empty when the matcher has none. *)
Theorem no_mention_no_candidate question question_sanitized template_types_
    types_from_ner q_type_flag (s : state) :
  let tm := template_matcher question_sanitized [] in
  entities_from_template tm = [] ->
  types_from_template tm = [] ->
  let run :=
    find_candidate_answers question question_sanitized template_types_ []
      types_from_ner q_type_flag s in
  run.1 = Ret ([], template_answer tm)
  /\ (template_answer tm = "" -> run.1 = Ret ([], ""))
  /\ new_events s run.2 [CallTemplateMatcher question_sanitized []]
  /\ library (self run.2) = library (self s).
Proof.
  intros tm Hentities Htypes run. subst run.
  unfold find_candidate_answers. unfold_monad. simpl.
  fold tm. rewrite Hentities, Htypes. simpl.
  split; [done|]. split; [by intros ->|]. done.
Qed.

(** The how-to path, for a matcher that yields an entity mention: one
    candidate tagged ["PHOW"], whose content is never empty, and no call of
    the linker, of the query parser or of the wiki parser. *)
Lemma how_to_single_candidate question question_sanitized template_types_
    entities_from_ner types_from_ner q_type_flag (s : state) :
  let tm := template_matcher question_sanitized entities_from_ner in
  entities_from_template tm <> [] ->
  (exists rel rels, rels_from_template tm = ("PHOW" :: rel) :: rels) ->
  let run :=
    find_candidate_answers question question_sanitized template_types_
      entities_from_ner types_from_ner q_type_flag s in
  exists content events,
    run.1 = Ret ([[Text "PHOW"; Text content; Number 1]], template_answer tm)
    /\ content <> ""
    /\ (content = "Not Found" \/ exists text, content = str_strip text +:+ "@en")
    /\ new_events s run.2
         (CallTemplateMatcher question_sanitized entities_from_ner :: events)
    /\ forallb how_to_event events = true.
Proof.
  intros tm Hentities (rel & rels & Hrels) run. subst run.
  unfold find_candidate_answers, template_path, find_answer_wikihow.
  unfold_monad. simpl. fold tm.
  destruct (entities_from_template tm) as [|howto_sentence others] eqn:He; [done|].
  rewrite Hrels. simpl.
  destruct (search howto_sentence 5) as [|hit hits] eqn:Hs; simpl.
  - exists "Not Found", [CallSearch howto_sentence 5].
    split; [done|]. split; [done|]. split; [by left|].
    split; [|done]. unfold new_events. simpl. by rewrite <- app_assoc.
  - destruct (paragraphs (get_html (article_id hit))) as [|text texts] eqn:Hp; simpl.
    + exists "Not Found", [CallSearch howto_sentence 5; CallGetHtml (article_id hit)].
      split; [done|]. split; [done|]. split; [by left|].
      split; [|done]. unfold new_events. simpl. by rewrite <- !app_assoc.
    + exists (str_strip text +:+ "@en"),
        [CallSearch howto_sentence 5; CallGetHtml (article_id hit)].
      split; [done|]. split.
      { destruct (str_strip text); discriminate. }
      split; [right; by exists text|].
      split; [|done]. unfold new_events. simpl. by rewrite <- !app_assoc.
Qed.

End QueryGenerator.

(** *** The methods on concrete inputs *)

Lemma parser_tries_templates_then_alternatives_witness :
  template_nums (self Stub.ready) = Some (TypeList ["7"]) /\
  self (sparql_template_parser (services := Stub.fallback_services) "where was he born"
          [["Q76"]] [] (TypeFlag "") None None Stub.ready).2
  = self Stub.ready.
Proof.
  split; [reflexivity|].
  exact (proj1 (parser_tries_templates_then_alternatives
                  (services := Stub.fallback_services) "where was he born" [["Q76"]] []
                  (TypeFlag "") None Stub.ready (TypeList ["7"]) eq_refl)).
Defined.

Lemma parser_selects_by_relation_directions_witness :
  template_nums (self Stub.ready) = Some (TypeList ["7"]) /\
  self (sparql_template_parser (services := Stub.born_services) "where was he born"
          [["Q76"]] [] (TypeFlag "") (Some [["P19"]]) (Some ["backw"]) Stub.ready).2
  = self Stub.ready.
Proof.
  split; [reflexivity|].
  exact (proj1 (parser_selects_by_relation_directions
                  (services := Stub.born_services) "where was he born" [["Q76"]] []
                  (TypeFlag "") [["P19"]] ["backw"] Stub.ready (TypeList ["7"]) eq_refl)).
Defined.

Lemma find_top_rels_bounded_witness :
  0 <= entities_to_leave (self Stub.fresh) /\
  len (wiki_queries (self Stub.fresh) [["Q76"; "Q649593"]; ["Q76"]] "forw" "direct")
  <= len [["Q76"; "Q649593"]; ["Q76"]] * entities_to_leave (self Stub.fresh).
Proof.
  assert (H : 0 <= entities_to_leave (self Stub.fresh)) by (by vm_compute).
  split; [exact H|].
  exact (proj2 (proj2 (proj2 (proj2 (proj2 (proj2
           (find_top_rels_bounded (services := Stub.born_services) "where was he born"
              [["Q76"; "Q649593"]; ["Q76"]] "forw" "wiki" "direct" Stub.fresh))))) H)).
Defined.

Lemma no_mention_no_candidate_witness :
  entities_from_template
    (template_matcher (Collaborators := Stub.fallback_services) "what is it" []) = [] /\
  types_from_template
    (template_matcher (Collaborators := Stub.fallback_services) "what is it" []) = [] /\
  (find_candidate_answers (services := Stub.fallback_services) "what is it" "what is it"
     (TypeList ["7"]) [] [] "" Stub.fresh).1
  = Ret ([], "").
Proof.
  split; [reflexivity|]. split; [reflexivity|].
  exact (proj1 (no_mention_no_candidate (services := Stub.fallback_services)
                  "what is it" "what is it" (TypeList ["7"]) [] "" Stub.fresh
                  eq_refl eq_refl)).
Defined.

Lemma decode_errors_are_absorbed_witness :
  linker_entities (Collaborators := Stub.undecodable_services)
    [["justin"]] [None] [["who is justin"]] = Raise JSONDecodeError /\
  wiki_parser (Collaborators := Stub.undecodable_services)
    ["find_rels"] [("Q76", "forw", "direct")] = Raise JSONDecodeError /\
  (get_entity_ids (services := Stub.undecodable_services) ["Justin"] "entities" None
     (Some "Who is Justin") None Stub.fresh).1 = Ret [] /\
  (find_top_rels (services := Stub.undecodable_services) "who is justin" [["Q76"]]
     ("forw", "wiki", "direct") Stub.fresh).1 = Ret [].
Proof.
  split; [reflexivity|]. split; [reflexivity|].
  destruct (decode_errors_are_absorbed (services := Stub.undecodable_services) Stub.fresh)
    as [Hlinker Hwiki].
  split.
  - rewrite (Hlinker ["Justin"] None "Who is Justin" None); reflexivity.
  - rewrite (Hwiki "who is justin" [["Q76"]] "forw" "direct"); reflexivity.
Defined.

(** C3. [find_candidate_answers] raises [IndexError] on the template path
    when there are several NER type lists and every one of them holds only
    ["misc"] types ([filtered_types[-1]] on an empty list), and when the
    matcher yields an entity mention with an empty relation list
    ([rels_from_template[0]]). *)
Theorem unguarded_index_raises :
  (find_candidate_answers (services := Stub.born_services) "where was justin born"
     "where was justin born" (TypeList ["7"]) ["justin"; "bieber"]
     [[Stub.misc]; [Stub.misc]] "" Stub.fresh).1 = Raise IndexError
  /\
  (find_candidate_answers (services := Stub.no_relation_services) "where was justin born"
     "where was justin born" (TypeList ["7"]) ["justin"] [[Stub.per]] "" Stub.fresh).1
  = Raise IndexError.
Proof. split; reflexivity. Qed.

(** C4. For a how-to match that carries a type mention and no entity
    mention, [find_candidate_answers] raises [IndexError]
    ([entities_from_template[0]]) and returns no candidate. *)
Theorem how_to_without_entity_raises :
  (find_candidate_answers (services := Stub.how_to_type_services) "how to relax"
     "how to relax" (TypeList ["7"]) [] [] "" Stub.fresh).1 = Raise IndexError.
Proof. reflexivity. Qed.

(** ** The skill selector *)

Section SkillSelector.
Import Selector.
Variable str_lower : string -> string.
Variables CAN_NOT_CONTINUE CAN_CONTINUE MUST_CONTINUE : string.

Abbreviation skills_for_dialog :=
  (Selector.skills_for_dialog str_lower CAN_NOT_CONTINUE CAN_CONTINUE MUST_CONTINUE).
Abbreviation call := (Selector.call str_lower CAN_NOT_CONTINUE CAN_CONTINUE MUST_CONTINUE).

#[local] Arguments item_from_end : simpl never.
#[local] Arguments item_last : simpl never.

Lemma item_last_nonempty {A} (l : list A) : l <> [] -> exists x, item_last l = Ret x.
Proof.
  intros Hl. unfold item_last.
  destruct (last l) as [x|] eqn:Hlast; [by exists x|].
  by apply last_None in Hlast.
Qed.

Lemma item_from_end_in_range {A} (k : nat) (l : list A) :
  (S k <= length l)%nat -> exists x, item_from_end (S k) l = Ret x.
Proof.
  intros Hk. unfold item_from_end.
  destruct (reverse l !! k) as [x|] eqn:Hx; [by exists x|].
  apply lookup_ge_None in Hx. rewrite length_reverse in Hx. lia.
Qed.

Lemma skills_for_dialog_returns (dialog : dialog) :
  utterances dialog <> [] -> exists skills, skills_for_dialog dialog = Ret skills.
Proof.
  intros Hne. unfold Selector.skills_for_dialog.
  destruct (item_last_nonempty _ Hne) as [last_uttr ->]. simpl.
  destruct (decide (3 <= length (utterances dialog))%nat) as [H3|H3].
  - rewrite (bool_decide_true _ H3).
    destruct (item_from_end_in_range 2 _ H3) as [u3 ->]. simpl.
    assert (H2 : (2 <= length (utterances dialog))%nat) by lia.
    rewrite (bool_decide_true _ H2).
    destruct (item_from_end_in_range 1 _ H2) as [u2 ->]. simpl. by eexists.
  - rewrite (bool_decide_false _ H3). simpl.
    destruct (decide (2 <= length (utterances dialog))%nat) as [H2|H2].
    + rewrite (bool_decide_true _ H2).
      destruct (item_from_end_in_range 1 _ H2) as [u2 ->]. simpl. by eexists.
    + rewrite (bool_decide_false _ H2). simpl. by eexists.
Qed.

Lemma skills_for_dialog_result (dialog : dialog) (skills : list string) :
  skills_for_dialog dialog = Ret skills -> "dummy_skill" ∈ skills /\ NoDup skills.
Proof.
  unfold Selector.skills_for_dialog. intros Hrun.
  destruct (item_last (utterances dialog)) as [last_uttr|]; [|done]. simpl in Hrun.
  destruct (if bool_decide (3 <= length (utterances dialog))%nat
            then _ else _) as [prev_user_uttr_hyp|]; [|done]. simpl in Hrun.
  destruct (if bool_decide (2 <= length (utterances dialog))%nat
            then _ else _) as [prev_bot_uttr|]; [|done]. simpl in Hrun.
  injection Hrun as <-. split.
  - apply list_of_set_elem, elem_of_app. right. by apply list_elem_of_singleton.
  - apply list_of_set_nodup.
Qed.

(** C10. Whenever [__call__] returns, it returns one skill list per dialog
    of the batch, and every list holds ["dummy_skill"] and no skill twice,
    whichever branch chose the skills; and it does return when every dialog
    of the batch has an utterance. *)
Theorem dummy_skill_in_every_list (states_batch : list dialog) :
  (forall skill_names,
      call states_batch = Ret skill_names ->
      length skill_names = length states_batch /\
      Forall (fun skills => "dummy_skill" ∈ skills /\ NoDup skills) skill_names)
  /\ (Forall (fun dialog => utterances dialog <> []) states_batch ->
      exists skill_names, call states_batch = Ret skill_names).
Proof.
  unfold Selector.call. split.
  - induction states_batch as [|dialog rest IH]; intros skill_names Hrun; simpl in Hrun.
    + by injection Hrun as <-.
    + destruct (skills_for_dialog dialog) as [skills|] eqn:Hd; [|done].
      destruct (map_outcome _ rest) as [names|] eqn:Hrest; [|done].
      injection Hrun as <-. destruct (IH names eq_refl) as [Hlen Hall].
      split; [simpl; by rewrite Hlen|].
      constructor; [exact (skills_for_dialog_result _ _ Hd)|done].
  - induction 1 as [|dialog rest Hne Hrest IH]; simpl; [by eexists|].
    destruct (skills_for_dialog_returns _ Hne) as [skills ->].
    destruct IH as [names ->]. by eexists.
Qed.

End SkillSelector.

Lemma dummy_skill_in_every_list_witness :
  Forall (fun dialog => Selector.utterances dialog <> [])
    [SelectorStub.barely_heard; SelectorStub.greeting] /\
  exists skill_names,
    Selector.call Stub.lower "no" "can" "must"
      [SelectorStub.barely_heard; SelectorStub.greeting] = Ret skill_names.
Proof.
  assert (H : Forall (fun dialog => Selector.utterances dialog <> [])
                [SelectorStub.barely_heard; SelectorStub.greeting]).
  { repeat constructor; discriminate. }
  split; [exact H|].
  exact (proj2 (dummy_skill_in_every_list Stub.lower "no" "can" "must"
                  [SelectorStub.barely_heard; SelectorStub.greeting]) H).
Defined.

(** * Further properties *)

(** ** Strings *)

Lemma has_char_app (c : ascii) (s t : string) :
  has_char c (s +:+ t) = has_char c s || has_char c t.
Proof.
  induction s as [|c' s IH]; simpl; [done|].
  rewrite IH. by rewrite orb_assoc.
Qed.

Lemma prefix_one_char (c c' : ascii) (s : string) :
  String.prefix (String c EmptyString) (String c' s) = Ascii.eqb c' c.
Proof.
  simpl. destruct (ascii_dec c c') as [->|Hne].
  - rewrite Ascii.eqb_refl. by destruct s.
  - symmetry. apply Ascii.eqb_neq. congruence.
Qed.

Lemma replace_from_cons (old new : string) (skip : nat) (c : ascii) (s : string) :
  replace_from old new skip (String c s)
  = match skip with
    | S k => replace_from old new k s
    | O =>
        if String.prefix old (String c s)
        then new +:+ replace_from old new (String.length old - 1) s
        else String c (replace_from old new 0 s)
    end.
Proof. by destruct skip. Qed.

(** A replacement brings in no character that is neither in the string nor
    in the replacement text. *)
Lemma replace_from_keeps_absent (c : ascii) (old new : string) (skip : nat) (s : string) :
  has_char c s = false -> has_char c new = false ->
  has_char c (replace_from old new skip s) = false.
Proof.
  intros Hs Hnew. revert skip Hs.
  induction s as [|c' s IH]; intros skip Hs; [done|].
  simpl in Hs. apply orb_false_iff in Hs as [Hc Hs].
  rewrite replace_from_cons.
  destruct skip as [|k]; [|by apply IH].
  destruct (String.prefix old (String c' s)).
  - rewrite has_char_app, Hnew. simpl. by apply IH.
  - simpl. rewrite Hc. simpl. by apply IH.
Qed.

(** Replacing a one-character string removes every occurrence of it. *)
Lemma replace_from_removes_char (c : ascii) (new : string) (skip : nat) (s : string) :
  has_char c new = false ->
  has_char c (replace_from (String c EmptyString) new skip s) = false.
Proof.
  intros Hnew. revert skip.
  induction s as [|c' s IH]; intros skip; [done|].
  rewrite replace_from_cons.
  destruct skip as [|k]; [|by apply IH].
  rewrite prefix_one_char.
  destruct (Ascii.eqb c' c) eqn:Hc.
  - rewrite has_char_app, Hnew. simpl. apply IH.
  - simpl. rewrite Hc. simpl. apply IH.
Qed.

Lemma contains_tail (p : string) (c : ascii) (s : string) :
  contains p (String c s) = false ->
  String.prefix p (String c s) = false /\ contains p s = false.
Proof.
  intros H. change (contains p (String c s))
    with (String.prefix p (String c s) || contains p s) in H.
  by apply orb_false_iff in H.
Qed.

(** A string in which [old] does not occur is left as it is. *)
Lemma replace_absent (old new s : string) :
  contains old s = false -> Py.replace old new s = s.
Proof.
  unfold Py.replace. induction s as [|c s IH]; intros H; [done|].
  apply contains_tail in H as [Hp Hc].
  rewrite replace_from_cons, Hp. by rewrite IH.
Qed.

Lemma first_segment_no_sep (sep : ascii) (s : string) :
  has_char sep (first_segment sep s) = false.
Proof.
  induction s as [|c s IH]; simpl; [done|].
  destruct (Ascii.eqb c sep) eqn:Hc; simpl; [done|]. by rewrite Hc.
Qed.

Lemma first_segment_prefix (sep : ascii) (s : string) :
  exists rest, s = first_segment sep s +:+ rest.
Proof.
  induction s as [|c s [rest IH]]; simpl; [by exists EmptyString|].
  destruct (Ascii.eqb c sep).
  - by exists (String c s).
  - exists rest. rewrite IH at 1. reflexivity.
Qed.

Lemma first_segment_whole (sep : ascii) (s : string) :
  has_char sep s = false -> first_segment sep s = s.
Proof.
  induction s as [|c s IH]; simpl; [done|].
  intros [Hc Hs]%orb_false_iff. rewrite Hc. by rewrite IH.
Qed.

Lemma append_cons (c : ascii) (s t : string) : String c s +:+ t = String c (s +:+ t).
Proof. reflexivity. Qed.

Lemma append_assoc (s t u : string) : (s +:+ t) +:+ u = s +:+ (t +:+ u).
Proof.
  induction s as [|c s IH]; [done|].
  by rewrite !append_cons, IH.
Qed.

Lemma append_empty_r (s : string) : s +:+ EmptyString = s.
Proof.
  induction s as [|c s IH]; [done|].
  by rewrite append_cons, IH.
Qed.

Lemma last_segment_from_no_sep (sep : ascii) (acc s : string) :
  has_char sep acc = false -> has_char sep (last_segment_from sep acc s) = false.
Proof.
  revert acc. induction s as [|c s IH]; intros acc Hacc; simpl; [done|].
  destruct (Ascii.eqb c sep) eqn:Hc.
  - by apply IH.
  - apply IH. rewrite has_char_app, Hacc. simpl. by rewrite Hc.
Qed.

Lemma last_segment_from_suffix (sep : ascii) (acc s : string) :
  exists front, acc +:+ s = front +:+ last_segment_from sep acc s.
Proof.
  revert acc. induction s as [|c s IH]; intros acc; simpl.
  - exists EmptyString. by rewrite append_empty_r.
  - destruct (Ascii.eqb c sep).
    + destruct (IH EmptyString) as [front Hf].
      change (EmptyString +:+ s) with s in Hf.
      exists (acc +:+ String c front).
      by rewrite append_assoc, append_cons, <- Hf.
    + destruct (IH (acc +:+ String c EmptyString)) as [front Hf].
      exists front. rewrite <- Hf. by rewrite append_assoc.
Qed.

Lemma last_segment_from_whole (sep : ascii) (acc s : string) :
  has_char sep s = false -> last_segment_from sep acc s = acc +:+ s.
Proof.
  revert acc. induction s as [|c s IH]; intros acc; simpl.
  - by rewrite append_empty_r.
  - intros [Hc Hs]%orb_false_iff. rewrite Hc, IH by done.
    by rewrite append_assoc.
Qed.

(** ** Loading and question normalisation *)

(** X1. After the token replacements of [find_candidate_answers] the
    question holds no brace, no parenthesis and no double quote. *)
Theorem normalized_question_has_no_brackets (question : string) :
  Forall (fun c => has_char c (normalize_question question) = false)
    ["{"%char; "}"%char; "("%char; ")"%char; Ascii.ascii_of_nat 34].
Proof.
  unfold normalize_question, replace_tokens, double_quote, Py.replace. simpl.
  repeat constructor;
    repeat first
      [ by apply replace_from_removes_char
      | apply replace_from_keeps_absent; [|reflexivity] ].
Qed.

Lemma fold_replace_absent (tokens : list (string * string)) (question : string) :
  Forall (fun token => contains token.1 question = false) tokens ->
  fold_left (fun q '(old, new) => Py.replace old new q) tokens question = question.
Proof.
  induction 1 as [|[old new] rest Hold Hrest IH]; simpl; [done|].
  simpl in Hold. by rewrite replace_absent.
Qed.

(** X2. A question in which none of the nine tokens occurs is passed on
    unchanged. *)
Theorem normalize_question_unchanged (question : string) :
  Forall (fun token => contains token.1 question = false) replace_tokens ->
  normalize_question question = question.
Proof. apply fold_replace_absent. Qed.

Lemma normalize_question_unchanged_witness :
  Forall (fun token => contains token.1 "where was justin bieber born" = false)
    replace_tokens /\
  normalize_question "where was justin bieber born" = "where was justin bieber born".
Proof.
  assert (H : Forall (fun token => contains token.1 "where was justin bieber born" = false)
                replace_tokens) by (repeat constructor).
  split; [exact H|]. exact (normalize_question_unchanged _ H).
Defined.

Lemma first_segment_split (sep : ascii) (s : string) :
  s = first_segment sep s
  \/ exists rest, s = first_segment sep s +:+ String sep rest.
Proof.
  induction s as [|c s IH]; simpl; [by left|].
  destruct (Ascii.eqb_spec c sep) as [->|Hne].
  - right. by exists s.
  - destruct IH as [IH|[rest IH]].
    + left. by rewrite <- IH.
    + right. exists rest. rewrite append_cons. by rewrite <- IH.
Qed.

Lemma rank_list_entries (lines : list string) :
  Forall2
    (fun line rel =>
       has_char tab rel = false /\
       (line = rel \/ exists rest, line = rel +:+ String tab rest) /\
       (has_char tab line = false -> rel = line))
    lines (map (first_segment tab) lines).
Proof.
  induction lines as [|line lines IH]; simpl; constructor; [|done].
  split; [apply first_segment_no_sep|]. split; [apply first_segment_split|].
  apply first_segment_whole.
Qed.

(** X3. [__init__] with [load] leaves one relation per line of each rank
    file, in the order of the lines: the text before the first tab of the
    line.  It holds no tab, and the line is either that text alone (its line
    end included, when the line has no tab) or that text, a tab and the
    rest.  The template library is the content of the queries file, and
    [template_nums] is not set. *)
Theorem init_loads_rank_lists (c : config) (lines_1 lines_2 : list string)
    (queries : list (string * Template)) :
  let o := init c lines_1 lines_2 queries in
  let entry line rel :=
    has_char tab rel = false /\
    (line = rel \/ exists rest, line = rel +:+ String tab rest) /\
    (has_char tab line = false -> rel = line) in
  Forall2 entry lines_1 (rank_list_0 o)
  /\ Forall2 entry lines_2 (rank_list_1 o)
  /\ template_queries o = queries
  /\ template_nums o = None.
Proof.
  simpl. split; [apply rank_list_entries|]. split; [apply rank_list_entries|]. done.
Qed.

(** ** What the methods call and assign *)

#[local] Instance appends_preorder (P : event -> Prop) : PreOrder (appends P).
Proof.
  split.
  - intros s. exists []. split; [|constructor].
    unfold new_events. by rewrite app_nil_r.
  - intros s1 s2 s3 (ev1 & H1 & P1) (ev2 & H2 & P2). exists (ev1 ++ ev2).
    split; [|by apply Forall_app].
    unfold new_events in *. by rewrite H2, H1, app_assoc.
Qed.

#[local] Instance same_self_preorder : PreOrder same_self.
Proof.
  split; [done|]. intros s1 s2 s3 H1 H2. unfold same_self in *. congruence.
Qed.

#[local] Instance template_nums_among_preorder (allowed : list template_types) :
  PreOrder (template_nums_among allowed).
Proof.
  split; [by left|].
  intros s1 s2 s3 [H1|(t1 & Ht1 & H1)] [H2|(t2 & Ht2 & H2)];
    unfold template_nums_among; rewrite H2, H1; [by left|right..].
  - by exists t2.
  - by exists t1.
  - by exists t2.
Qed.

Section Footprint.
Context `{services : Collaborators}.

Section Closure.
Context (R : relation state) `{!PreOrder R}.

Lemma respects_ret {A} (a : A) : respects R (mret a : M A).
Proof. intros s. simpl. reflexivity. Qed.

Lemma respects_raise {A} (e : exn) : respects R (raise e : M A).
Proof. intros s. simpl. reflexivity. Qed.

Lemma respects_lift {A} (o : outcome A) : respects R (lift o).
Proof. intros s. simpl. reflexivity. Qed.

Lemma respects_get_self : respects R get_self.
Proof. intros s. simpl. reflexivity. Qed.

Lemma respects_bind {A B} (m : M A) (k : A -> M B) :
  respects R m -> (forall a, respects R (k a)) -> respects R (mbind k m).
Proof.
  intros Hm Hk s. unfold mbind, M_bind, bind.
  specialize (Hm s). destruct (m s) as [[a|e] s1]; simpl in *; [|done].
  etransitivity; [exact Hm|apply Hk].
Qed.

Lemma respects_try_except_json {A} (body handler : M A) :
  respects R body -> respects R handler -> respects R (try_except_json body handler).
Proof.
  intros Hb Hh s. unfold try_except_json.
  specialize (Hb s). destruct (body s) as [[a|e] s1]; simpl in *; [done|].
  destruct (is_json_decode_error e); simpl; [|done].
  etransitivity; [exact Hb|apply Hh].
Qed.

End Closure.

Lemma respects_run {A} (R : relation state) (m : M A) (s : state) :
  respects R m -> R s (m s).2.
Proof. intros H. apply H. Qed.

Lemma respects_weaken {A} (R R' : relation state) (m : M A) :
  (forall s s', R s s' -> R' s s') -> respects R m -> respects R' m.
Proof. intros HR Hm s. apply HR, Hm. Qed.

Lemma run_bind {A B} (m : M A) (k : A -> M B) (s : state) :
  mbind k m s
  = match m s with
    | (Ret a, s') => k a s'
    | (Raise e, s') => (Raise e, s')
    end.
Proof. reflexivity. Qed.

Lemma run_ret {A} (a : A) (s : state) : (mret a : M A) s = (Ret a, s).
Proof. reflexivity. Qed.

(** The two effects, for each of the three relations. *)
Lemma appends_emit (P : event -> Prop) (e : event) : P e -> respects (appends P) (emit e).
Proof. intros He s. exists [e]. split; [done|]. by constructor. Qed.

Lemma appends_set_template_nums (P : event -> Prop) (t : template_types) :
  respects (appends P) (set_template_nums t).
Proof.
  intros s. exists []. split; [|constructor].
  unfold new_events. simpl. by rewrite app_nil_r.
Qed.

Lemma same_self_emit (e : event) : respects same_self (emit e).
Proof. by intros s. Qed.

Lemma among_emit (allowed : list template_types) (e : event) :
  respects (template_nums_among allowed) (emit e).
Proof. intros s. by left. Qed.

Lemma among_set_template_nums (allowed : list template_types) (t : template_types) :
  t ∈ allowed -> respects (template_nums_among allowed) (set_template_nums t).
Proof. intros Ht s. right. by exists t. Qed.

Lemma same_self_among (allowed : list template_types) {A} (m : M A) :
  respects same_self m -> respects (template_nums_among allowed) m.
Proof. apply respects_weaken. intros s s' H. by left. Qed.

(** Splits a computation along its binds and branches; [known] closes the
    effects and the calls of methods that were dealt with before. *)
Ltac respects_with known :=
  repeat first
    [ apply respects_ret; tc_solve | apply respects_raise; tc_solve
    | apply respects_lift; tc_solve | apply respects_get_self; tc_solve
    | known
    | apply respects_bind; [tc_solve| |intros ?]
    | apply respects_try_except_json; [tc_solve| |]
    | match goal with
      | |- respects _ (if ?b then _ else _) => destruct b
      | |- respects _ (match ?x with _ => _ end) => destruct x
      end ].

Ltac same_self_with known :=
  respects_with ltac:(first [apply same_self_emit | known]).

Ltac appends_with known :=
  respects_with ltac:(first [ apply appends_set_template_nums
                            | apply appends_emit; simpl; by eauto
                            | known ]).

(** *** No method but [find_candidate_answers] assigns an attribute *)

Lemma same_self_call_query_parser question template select entity_ids type_ids rels answer :
  respects same_self
    (call_query_parser question template select entity_ids type_ids rels answer).
Proof. unfold call_query_parser. same_self_with fail. Qed.

Lemma same_self_try_templates question entity_ids type_ids rels answer templates
    candidate_outputs :
  respects same_self
    (try_templates question entity_ids type_ids rels answer templates candidate_outputs).
Proof.
  revert candidate_outputs. induction templates as [|t rest IH]; intros co; simpl.
  - same_self_with fail.
  - same_self_with ltac:(first [apply same_self_call_query_parser | apply IH]).
Qed.

Lemma same_self_try_alternatives question entity_ids type_ids rels answer alts
    candidate_outputs :
  respects same_self
    (try_alternatives question entity_ids type_ids rels answer alts candidate_outputs).
Proof.
  revert candidate_outputs. induction alts as [|[num select] rest IH]; intros co; simpl.
  - same_self_with fail.
  - same_self_with ltac:(first [apply same_self_call_query_parser | apply IH]).
Qed.

Lemma same_self_sparql_template_parser question entity_ids type_ids answer rels rel_dirs :
  respects same_self
    (sparql_template_parser question entity_ids type_ids answer rels rel_dirs).
Proof.
  unfold sparql_template_parser.
  same_self_with ltac:(first [ apply same_self_call_query_parser
                             | apply same_self_try_templates
                             | apply same_self_try_alternatives ]).
Qed.

Lemma same_self_get_entity_ids entities what_to_link template_found question entity_types :
  respects same_self
    (get_entity_ids entities what_to_link template_found question entity_types).
Proof.
  unfold get_entity_ids, lower_of, call_linker_entities, call_linker_types.
  same_self_with fail.
Qed.

Lemma same_self_find_top_rels question entity_ids triplet_info :
  respects same_self (find_top_rels question entity_ids triplet_info).
Proof.
  unfold find_top_rels, filtered_relations, call_rank_rels, call_wiki_parser.
  destruct triplet_info as [[direction source] rel_type].
  same_self_with fail.
Qed.

Lemma same_self_find_answer_wikihow howto_sentence :
  respects same_self (find_answer_wikihow howto_sentence).
Proof. unfold find_answer_wikihow, call_search, call_get_html. same_self_with fail. Qed.

(** X4. [get_entity_ids], [sparql_template_parser], [find_top_rels] and
    [find_answer_wikihow] assign no attribute of [self], whether they return
    or raise. *)
Theorem helpers_assign_nothing (s : state) :
  (forall entities what_to_link template_found question entity_types,
      self (get_entity_ids entities what_to_link template_found question entity_types s).2
      = self s)
  /\ (forall question entity_ids type_ids answer rels rel_dirs,
         self (sparql_template_parser question entity_ids type_ids answer rels rel_dirs s).2
         = self s)
  /\ (forall question entity_ids triplet_info,
         self (find_top_rels question entity_ids triplet_info s).2 = self s)
  /\ (forall howto_sentence, self (find_answer_wikihow howto_sentence s).2 = self s).
Proof.
  split; [|split; [|split]]; intros.
  - apply same_self_get_entity_ids.
  - apply same_self_sparql_template_parser.
  - apply same_self_find_top_rels.
  - apply same_self_find_answer_wikihow.
Qed.

(** *** Which services each method calls *)

Lemma appends_get_entity_ids entities what_to_link template_found question entity_types :
  respects (appends is_linker_call)
    (get_entity_ids entities what_to_link template_found question entity_types).
Proof.
  unfold get_entity_ids, lower_of, call_linker_entities, call_linker_types.
  appends_with fail.
Qed.

Lemma appends_find_top_rels question entity_ids triplet_info :
  respects (appends is_relation_call) (find_top_rels question entity_ids triplet_info).
Proof.
  unfold find_top_rels, filtered_relations, call_rank_rels, call_wiki_parser.
  destruct triplet_info as [[direction source] rel_type].
  appends_with fail.
Qed.

Lemma appends_find_answer_wikihow howto_sentence :
  respects (appends is_how_to_call) (find_answer_wikihow howto_sentence).
Proof. unfold find_answer_wikihow, call_search, call_get_html. appends_with fail. Qed.

Lemma appends_call_query_parser (P : event -> Prop) question template select entity_ids
    type_ids rels answer :
  P (CallQueryParser question template select entity_ids type_ids rels answer) ->
  respects (appends P)
    (call_query_parser question template select entity_ids type_ids rels answer).
Proof. intros HP. unfold call_query_parser. appends_with ltac:(by apply appends_emit). Qed.

Lemma appends_try_templates (P : event -> Prop) question entity_ids type_ids rels answer
    templates candidate_outputs :
  (forall t sel, P (CallQueryParser question t sel entity_ids type_ids rels answer)) ->
  respects (appends P)
    (try_templates question entity_ids type_ids rels answer templates candidate_outputs).
Proof.
  intros HP. revert candidate_outputs.
  induction templates as [|t rest IH]; intros co; simpl.
  - appends_with fail.
  - appends_with ltac:(first [by apply appends_call_query_parser | apply IH]).
Qed.

Lemma appends_try_alternatives (P : event -> Prop) question entity_ids type_ids rels answer
    alts candidate_outputs :
  (forall t sel, P (CallQueryParser question t sel entity_ids type_ids rels answer)) ->
  respects (appends P)
    (try_alternatives question entity_ids type_ids rels answer alts candidate_outputs).
Proof.
  intros HP. revert candidate_outputs.
  induction alts as [|[num select] rest IH]; intros co; simpl.
  - appends_with fail.
  - appends_with ltac:(first [by apply appends_call_query_parser | apply IH]).
Qed.

Lemma appends_sparql_template_parser (P : event -> Prop) question entity_ids type_ids
    answer rels rel_dirs :
  (forall t sel, P (CallQueryParser question t sel entity_ids type_ids rels answer)) ->
  respects (appends P)
    (sparql_template_parser question entity_ids type_ids answer rels rel_dirs).
Proof.
  intros HP. unfold sparql_template_parser.
  appends_with ltac:(first [ by apply appends_call_query_parser
                           | by apply appends_try_templates
                           | by apply appends_try_alternatives ]).
Qed.

(** X5. [get_entity_ids] calls nothing but the two linkers, [find_top_rels]
    nothing but the wiki parser and the ranker, [find_answer_wikihow]
    nothing but the search and the page download, and
    [sparql_template_parser] nothing but [query_parser], to which it hands
    its own question, identifiers, relations and answer types unchanged; the
    trace is only appended to. *)
Theorem helpers_call_their_own_services (s : state) :
  (forall entities what_to_link template_found question entity_types,
      appends is_linker_call s
        (get_entity_ids entities what_to_link template_found question entity_types s).2)
  /\ (forall question entity_ids triplet_info,
         appends is_relation_call s (find_top_rels question entity_ids triplet_info s).2)
  /\ (forall howto_sentence,
         appends is_how_to_call s (find_answer_wikihow howto_sentence s).2)
  /\ (forall question entity_ids type_ids answer rels rel_dirs,
         appends
           (fun e => exists template select,
                e = CallQueryParser question template select entity_ids type_ids rels
                      answer)
           s (sparql_template_parser question entity_ids type_ids answer rels rel_dirs s).2).
Proof.
  split; [|split; [|split]]; intros.
  - apply appends_get_entity_ids.
  - apply appends_find_top_rels.
  - apply appends_find_answer_wikihow.
  - apply respects_run, appends_sparql_template_parser. eauto.
Qed.

(** *** [find_candidate_answers] *)

Lemma appends_link_entities (P : event -> Prop) entities template_found question
    entity_types :
  (forall a b c, P (CallLinkerEntities a b c)) ->
  respects (appends P)
    (get_entity_ids entities "entities" template_found question entity_types).
Proof.
  intros HP. unfold get_entity_ids, lower_of, call_linker_entities. simpl.
  appends_with ltac:(by apply appends_emit).
Qed.

Lemma follow_up_how_to howto_sentence :
  respects (appends follow_up_call) (find_answer_wikihow howto_sentence).
Proof.
  eapply respects_weaken; [|apply appends_find_answer_wikihow].
  intros s s' (events & Hev & HP). exists events. split; [done|].
  eapply Forall_impl; [exact HP|]. by intros [].
Qed.

Lemma run_set_template_nums (t : template_types) (s : state) :
  set_template_nums t s
  = (Ret tt, {| self := with_template_nums t (self s); trace := trace s |}).
Proof. reflexivity. Qed.

Lemma run_call_template_matcher question entities (s : state) :
  call_template_matcher question entities s
  = (Ret (template_matcher question entities),
     {| self := self s; trace := trace s ++ [CallTemplateMatcher question entities] |}).
Proof. reflexivity. Qed.

(** X6. [find_candidate_answers] calls the template matcher first and once,
    with the sanitized question and the NER mentions.  After that it calls
    only the entity linker, the query parser (always without type
    identifiers) and the how-to search: never the type linker, the wiki
    parser or the ranker.  It assigns [template_nums] and nothing else: the
    attribute ends as the matcher's template type, or as the caller's
    [template_types] when the NER fallback ran; without NER mentions it is
    the matcher's. *)
Theorem find_candidate_answers_footprint question question_sanitized template_types_
    entities_from_ner types_from_ner q_type_flag (s : state) :
  let tm := template_matcher question_sanitized entities_from_ner in
  let matched := TypeList [query_type_template tm] in
  let run :=
    find_candidate_answers question question_sanitized template_types_
      entities_from_ner types_from_ner q_type_flag s in
  (exists events,
      new_events s run.2
        (CallTemplateMatcher question_sanitized entities_from_ner :: events)
      /\ Forall follow_up_call events)
  /\ (self run.2 = with_template_nums matched (self s)
      \/ self run.2 = with_template_nums template_types_ (self s))
  /\ (entities_from_ner = [] -> self run.2 = with_template_nums matched (self s)).
Proof.
  intros tm matched run. subst run. unfold find_candidate_answers.
  rewrite run_bind, run_set_template_nums. cbv beta iota.
  rewrite run_bind, run_call_template_matcher. cbv beta iota.
  rewrite run_bind, run_set_template_nums. cbv beta iota.
  fold tm. simpl self. simpl trace.
  set (s2 := {| self := with_template_nums (TypeList [query_type_template tm])
                          (with_template_nums template_types_ (self s));
                trace := trace s ++ [CallTemplateMatcher question_sanitized
                                       entities_from_ner] |}).
  match goal with |- context [(?m s2).2] => set (rest := m) end.
  split; [|split].
  - assert (Hrest : respects (appends follow_up_call) rest).
    { subst rest. unfold template_path, ner_path.
      appends_with ltac:(first [ apply follow_up_how_to
                               | by apply appends_link_entities
                               | by apply appends_sparql_template_parser ]). }
    destruct (Hrest s2) as (events & Hev & HP). exists events. split; [|done].
    unfold new_events in *. rewrite Hev. simpl. by rewrite <- app_assoc.
  - assert (Hrest : respects (template_nums_among [template_types_]) rest).
    { subst rest. unfold template_path, ner_path.
      respects_with ltac:(first
        [ apply among_set_template_nums; by apply list_elem_of_singleton
        | apply same_self_among, same_self_find_answer_wikihow
        | apply same_self_among, same_self_get_entity_ids
        | apply same_self_among, same_self_sparql_template_parser ]). }
    destruct (Hrest s2) as [Hsame|(t & Ht%list_elem_of_singleton & Hset)].
    + left. by rewrite Hsame.
    + right. rewrite Hset. by subst t.
  - intros ->.
    assert (Hrest : respects same_self rest).
    { subst rest. unfold template_path.
      same_self_with ltac:(first
        [ apply same_self_find_answer_wikihow
        | apply same_self_get_entity_ids
        | apply same_self_sparql_template_parser
        | match goal with
          | |- respects _ (if _ && truthy [] then _ else _) => rewrite andb_false_r
          end ]). }
    by rewrite (Hrest s2).
Qed.

(** *** Where the answers of [sparql_template_parser] come from *)

Lemma dict_get_elem {V} (d : list (string * V)) (k : string) (v : V) :
  dict_get d k = Some v -> (k, v) ∈ d.
Proof.
  induction d as [|[k' v'] d IH]; simpl; [done|].
  destruct (String.eqb_spec k' k) as [->|Hne].
  - intros [= ->]. by left.
  - intros H. right. by apply IH.
Qed.

Lemma eligible_in_library (o : QueryGeneratorBase) nums entity_ids type_ids
    (template : Template) :
  template ∈ eligible_templates o nums entity_ids type_ids ->
  exists num, (num, template) ∈ template_queries o.
Proof.
  unfold eligible_templates. rewrite list_elem_of_In, filter_In, <- list_elem_of_In.
  intros [(wanted & num & _ & Hin & _)%matching_templates_elem _]. by exists num.
Qed.

Lemma primary_attempts_in_library (o : QueryGeneratorBase) nums entity_ids type_ids
    (attempts : list (Template * string)) :
  attempts ⊆ map primary_attempt (eligible_templates o nums entity_ids type_ids) ->
  Forall (fun att => exists num, (num, att.1) ∈ template_queries o) attempts.
Proof.
  intros Hsub. apply Forall_forall. intros att Hin.
  apply Hsub, list_elem_of_In, in_map_iff in Hin as (t & <- & Hin).
  simpl. eapply eligible_in_library. by apply list_elem_of_In.
Qed.

Lemma resolved_in_library (o : QueryGeneratorBase) (alts : list (string * string))
    (attempts : list (Template * string)) :
  resolved o alts attempts ->
  Forall (fun att => exists num, (num, att.1) ∈ template_queries o) attempts.
Proof.
  induction 1 as [|[num select] att alts attempts Hres _ IH]; constructor; [|done].
  unfold resolve_alternative in Hres. simpl in Hres.
  destruct (dict_get (template_queries o) num) as [t|] eqn:Hget; [|done].
  injection Hres as <-. exists num. by apply dict_get_elem.
Qed.

Lemma resolved_length (o : QueryGeneratorBase) (alts : list (string * string))
    (attempts : list (Template * string)) :
  resolved o alts attempts -> length attempts = length alts.
Proof. intros H. symmetry. by eapply Forall2_length. Qed.

Lemma unanswered_app question entity_ids type_ids rels answer
    (xs ys : list (Template * string)) :
  unanswered question entity_ids type_ids rels answer xs ->
  unanswered question entity_ids type_ids rels answer ys ->
  unanswered question entity_ids type_ids rels answer (xs ++ ys).
Proof. apply Forall_app_2. Qed.

Lemma select_by_rel_dirs_elem (templates : list Template)
    (rel_dirs_from_template : option (list string)) (t : Template) :
  select_by_rel_dirs templates rel_dirs_from_template = Some t -> t ∈ templates.
Proof.
  unfold select_by_rel_dirs.
  assert (Hgen : forall l chosen,
             fold_left
               (fun query_template template =>
                  if bool_decide (Some (rel_dirs template) = rel_dirs_from_template)
                  then Some template else query_template) l chosen = Some t ->
             t ∈ l \/ chosen = Some t).
  { induction l as [|x l IH]; intros chosen Hl; simpl in Hl; [by right|].
    destruct (IH _ Hl) as [Hin|Hc]; [left; by right|].
    case_bool_decide; [injection Hc as ->; left; by left|by right]. }
  intros Hl. by destruct (Hgen _ _ Hl).
Qed.

(** X7. Whatever the arguments, the calls of [sparql_template_parser] are
    [query_parser] calls on templates of the library.  A non-empty result is
    the answer of the last call made, and an empty result means every call
    was answered with the empty list.  The calls number at most the eligible
    templates plus the alternatives of the first of them. *)
Theorem parser_answer_is_its_last_call question entity_ids type_ids answer rels rel_dirs
    (s : state) :
  let o := self s in
  let ans := attempt_answer question entity_ids type_ids rels answer in
  let run := sparql_template_parser question entity_ids type_ids answer rels rel_dirs s in
  exists attempts,
    new_events s run.2 (map (attempt_event question entity_ids type_ids rels answer) attempts)
    /\ Forall (fun att => exists num, (num, att.1) ∈ template_queries o) attempts
    /\ (forall r, run.1 = Ret r -> r <> [] ->
                  exists att, last attempts = Some att /\ r = ans att)
    /\ (run.1 = Ret [] -> unanswered question entity_ids type_ids rels answer attempts)
    /\ (forall nums,
           template_nums o = Some nums ->
           let templates :=
             eligible_templates o (iter_template_types nums) entity_ids type_ids in
           (length attempts
            <= length templates
               + length (match templates with
                         | first_template :: _ => alternative_templates first_template
                         | [] => []
                         end))%nat).
Proof.
  intros o ans run. subst run.
  unfold sparql_template_parser.
  rewrite run_bind. change (get_self s) with (Ret (self s), s). cbv beta iota. fold o.
  destruct (template_nums o) as [nums|] eqn:Hnums.
  2:{ exists []. simpl. unfold new_events. rewrite app_nil_r.
      split; [done|]. split; [constructor|]. split; [done|]. split; [done|]. done. }
  rewrite run_bind, run_ret. cbv beta iota.
  pose proof (primary_attempts_in_library o (iter_template_types nums) entity_ids type_ids)
    as Hlib.
  destruct (eligible_templates o (iter_template_types nums) entity_ids type_ids)
    as [|first_template rest] eqn:Ht.
  { exists []. simpl. unfold new_events. rewrite app_nil_r.
    split; [done|]. split; [constructor|]. split; [by intros r [= <-]|].
    split; [constructor|]. intros nums' [= <-]. rewrite Ht. simpl. lia. }
  destruct rels as [rels|].
  - (* one template, chosen by its relation directions *)
    destruct (select_by_rel_dirs (first_template :: rest) rel_dirs) as [t|] eqn:Hsel.
    + apply select_by_rel_dirs_elem in Hsel.
      exists [primary_attempt t]. simpl.
      split; [done|]. split.
      { apply Hlib. intros x ->%list_elem_of_singleton.
        by apply list_elem_of_In, (in_map primary_attempt), list_elem_of_In. }
      split; [intros r [= <-] _; by exists (primary_attempt t)|].
      split; [intros [= Hr]; by constructor|].
      intros nums' [= <-]. rewrite Ht. simpl. lia.
    + exists []. simpl. unfold new_events. rewrite app_nil_r.
      split; [done|]. split; [constructor|]. split; [by intros r [= <-]|].
      split; [constructor|]. intros nums' [= <-]. rewrite Ht. simpl. lia.
  - (* the templates in order, then the alternatives *)
    rewrite run_bind.
    destruct (try_templates_run question entity_ids type_ids None answer
                (first_template :: rest) [] s)
      as [(pre & x & post & Hsplit & Hpre & Hx & Hrun) | (Hall & Hrun)].
    + rewrite Hrun. cbv beta iota. exists (pre ++ [x]). simpl.
      split; [done|]. split.
      { apply Hlib. rewrite Hsplit. intros y Hy. apply elem_of_app in Hy as [Hy|Hy].
        - apply elem_of_app. by left.
        - apply list_elem_of_singleton in Hy as ->. apply elem_of_app. right. by left. }
      split; [intros r [= <-] _; exists x; by rewrite last_snoc|].
      split; [intros [= Hr]; by rewrite Hr in Hx|].
      intros nums' [= <-]. rewrite Ht. simpl.
      assert (Hlen : length (map primary_attempt (first_template :: rest))
                     = length (pre ++ x :: post)) by by rewrite Hsplit.
      rewrite length_map, length_app in Hlen. rewrite length_app. simpl in *. lia.
    + rewrite Hrun. cbv beta iota.
      change (negb (truthy (@nil candidate))) with true. rewrite andb_true_l.
      destruct (use_alt_templates o) eqn:Halt; cbv iota.
      2:{ exists (map primary_attempt (first_template :: rest)). simpl.
          split; [done|]. split; [by apply Hlib|]. split; [by intros r [= <-]|].
          split; [done|].
          intros nums' [= <-]. rewrite Ht. simpl. rewrite length_map. lia. }
      rewrite run_bind.
      match goal with
      | |- context [try_alternatives _ _ _ _ _ _ _ ?s1] =>
          destruct (try_alternatives_run question entity_ids type_ids None answer
                      (alternative_templates first_template) [] s1)
            as [(pre & alt & post & pre' & x & Hsplit & Hpre & Hx & Hempty & Hans & Hrun')
               | [(attempts & Hres & Hempty & Hrun')
               | (pre & alt & post & pre' & Hsplit & Hpre & Hx & Hempty & Hrun')]];
            simpl self in *; rewrite Hrun'; cbv beta iota
      end.
      * exists (map primary_attempt (first_template :: rest) ++ pre' ++ [x]).
        split; [unfold new_events; simpl; by rewrite !map_app, <- !app_assoc|].
        split.
        { apply Forall_app. split; [by apply Hlib|]. apply Forall_app. split.
          - by eapply resolved_in_library.
          - eapply (resolved_in_library o [alt] [x]). by repeat constructor. }
        split; [intros r [= <-] _; exists x; by rewrite app_assoc, last_snoc|].
        split; [intros [= Hr]; by rewrite Hr in Hans|].
        intros nums' [= <-]. rewrite Ht. simpl.
        rewrite Hsplit, length_app, length_map, !length_app.
        pose proof (resolved_length _ _ _ Hpre). simpl. lia.
      * exists (map primary_attempt (first_template :: rest) ++ attempts).
        split; [unfold new_events; simpl; by rewrite !map_app, <- !app_assoc|].
        split; [apply Forall_app; split; [by apply Hlib|by eapply resolved_in_library]|].
        split; [intros r [= <-]; by destruct (alternative_templates first_template)|].
        split; [intros _; by apply unanswered_app|].
        intros nums' [= <-]. rewrite Ht. simpl.
        rewrite length_app, length_map. pose proof (resolved_length _ _ _ Hres).
        simpl. lia.
      * exists (map primary_attempt (first_template :: rest) ++ pre').
        split; [unfold new_events; simpl; by rewrite !map_app, <- !app_assoc|].
        split; [apply Forall_app; split; [by apply Hlib|by eapply resolved_in_library]|].
        split; [done|]. split; [done|].
        intros nums' [= <-]. rewrite Ht. simpl.
        rewrite Hsplit, !length_app, length_map.
        pose proof (resolved_length _ _ _ Hpre). simpl. lia.
Qed.

(** *** [get_entity_ids] *)

(** X8. To link entities, [get_entity_ids] calls the entity linker exactly
    once, with the mentions and the question in lower case, whatever the
    linker answers.  An exception other than [JSONDecodeError] is passed on;
    an empty answer gives the empty list; of a batch of records only the
    first record's identifiers are returned; behind the API requester one
    identifier list per record is returned. *)
Theorem entities_are_linked_in_lower_case entities template_found question entity_types
    (s : state) :
  let entities' := map str_lower entities in
  let context := [[str_lower question]] in
  let answer := linker_entities [entities'] [entity_types] context in
  let run :=
    get_entity_ids entities "entities" template_found (Some question) entity_types s in
  run.2 = {| self := self s;
             trace := trace s ++ [CallLinkerEntities [entities'] [entity_types] context] |}
  /\ (forall e, answer = Raise e -> is_json_decode_error e = false -> run.1 = Raise e)
  /\ (answer = Ret (ElBatch []) \/ answer = Ret (ElWrapped []) -> run.1 = Ret [])
  /\ (forall info infos,
         use_el_api_requester (self s) = false ->
         answer = Ret (ElBatch (info :: infos)) ->
         run.1 = Ret (get_entity_ids_entry info))
  /\ (forall infos batch,
         use_el_api_requester (self s) = true ->
         answer = Ret (ElWrapped (infos :: batch)) ->
         run.1 = Ret (map get_entity_ids_entry infos)).
Proof.
  intros entities' context answer run. subst run.
  unfold get_entity_ids, try_except_json, lower_of, call_linker_entities.
  unfold mbind, mret, M_bind, M_ret, bind, ret, lift, emit, get_self. simpl.
  fold entities' context answer.
  destruct answer as [[l|l]|e] eqn:Ha; simpl.
  - destruct l as [|info infos]; simpl.
    + split; [done|]. split; [done|]. split; [done|]. split; done.
    + destruct (use_el_api_requester (self s)) eqn:Hflag; simpl.
      * destruct info; simpl; (split; [done|]); (split; [done|]);
          (split; [by intros [|]|]); split; done.
      * split; [done|]. split; [done|]. split; [by intros [|]|].
        split; [by intros ? ? _ [= -> ->]|done].
  - destruct l as [|infos batch]; simpl.
    + split; [done|]. split; [done|]. split; [done|]. split; done.
    + destruct (use_el_api_requester (self s)) eqn:Hflag; simpl.
      * split; [done|]. split; [done|]. split; [by intros [|]|].
        split; [done|by intros ? ? _ [= -> ->]].
      * split; [done|]. split; [done|]. split; [by intros [|]|]. split; done.
  - destruct (is_json_decode_error e) eqn:He; simpl.
    + split; [done|]. split; [by intros ? [= <-]; congruence|].
      split; [done|]. split; done.
    + split; [done|]. split; [by intros ? [= <-]|].
      split; [by intros [|]|]. split; done.
Qed.

(** X9. [get_entity_ids] with a [what_to_link] other than ["entities"] and
    ["types"] returns the empty list and calls nothing; asked to link
    entities without a question it raises [AttributeError] before the linker
    is called; asked to link types it hands the mentions to the type linker
    as they are (not in lower case) and returns the first identifier list
    of the first element of the answer. *)
Theorem get_entity_ids_modes entities template_found entity_types (s : state) :
  (forall what_to_link question,
      what_to_link <> "entities" -> what_to_link <> "types" ->
      get_entity_ids entities what_to_link template_found question entity_types s
      = (Ret [], s))
  /\ get_entity_ids entities "entities" template_found None entity_types s
     = (Raise AttributeError, s)
  /\ (forall question,
         let run :=
           get_entity_ids entities "types" template_found question entity_types s in
         run.2 = {| self := self s; trace := trace s ++ [CallLinkerTypes [entities]] |}
         /\ (linker_types [entities] = [] -> run.1 = Raise ValueError)
         /\ (forall rest, linker_types [entities] = [] :: rest -> run.1 = Raise IndexError)
         /\ (forall ids others rest,
                linker_types [entities] = (ids :: others) :: rest -> run.1 = Ret ids)).
Proof.
  split; [|split].
  - intros what_to_link question He Ht.
    unfold get_entity_ids. unfold mbind, mret, M_bind, M_ret, bind, ret.
    destruct (String.eqb_spec what_to_link "entities") as [|_]; [done|].
    destruct (String.eqb_spec what_to_link "types") as [|_]; [done|].
    by destruct s.
  - unfold get_entity_ids, try_except_json, lower_of.
    unfold mbind, mret, M_bind, M_ret, bind, ret, raise. simpl. by destruct s.
  - intros question run. subst run.
    unfold get_entity_ids, call_linker_types.
    unfold mbind, mret, M_bind, M_ret, bind, ret, raise, lift, emit. simpl.
    destruct (linker_types [entities]) as [|[|ids others] rest]; simpl.
    + split; [done|]. split; [done|]. split; done.
    + split; [done|]. split; [done|]. split; done.
    + split; [done|]. split; [done|]. split; [done|]. by intros ? ? ? [= -> _ _].
Qed.

(** *** [find_top_rels] *)

(** X10. For the source ["rank_list_1"] [find_top_rels] ranks the relations
    of [rank_list_0] that start with ["P"], for ["rank_list_2"] those of
    [rank_list_1]; the entities are not looked at and the wiki parser is not
    called.  The ranker is not called for an empty pool, and any other
    source but ["wiki"] gives the empty list without a call. *)
Theorem static_rank_lists_are_ranked question entity_ids direction rel_type (s : state) :
  let o := self s in
  let ranked pool :=
    if truthy pool
    then (Ret (slice_to (rank_rels question pool) (rels_to_leave o)),
          {| self := o; trace := trace s ++ [CallRankRels question pool] |})
    else (Ret [], s) in
  find_top_rels question entity_ids (direction, "rank_list_1", rel_type) s
  = ranked (List.filter (startswith "P") (rank_list_0 o))
  /\ find_top_rels question entity_ids (direction, "rank_list_2", rel_type) s
     = ranked (List.filter (startswith "P") (rank_list_1 o))
  /\ (forall source,
         source <> "wiki" -> source <> "rank_list_1" -> source <> "rank_list_2" ->
         find_top_rels question entity_ids (direction, source, rel_type) s = (Ret [], s)).
Proof.
  intros o ranked. split; [|split].
  - rewrite find_top_rels_run, filtered_relations_static by done. done.
  - rewrite find_top_rels_run, filtered_relations_static by done. done.
  - intros source Hw H1 H2.
    rewrite find_top_rels_run, filtered_relations_static by done.
    destruct (String.eqb_spec source "rank_list_1") as [|_]; [done|].
    by destruct (String.eqb_spec source "rank_list_2") as [|_].
Qed.

Lemma last_segment_no_slash (rel : string) : has_char slash (last_segment slash rel) = false.
Proof. by apply last_segment_from_no_sep. Qed.

Lemma relations_of_answer_shape (api_requester : bool) (r : outcome wp_output)
    (ex_rels : list string) :
  relations_of_answer api_requester r = Ret ex_rels ->
  Forall (fun rel => startswith "P" rel = true) ex_rels
  /\ Forall (fun rel => has_char slash rel = false) ex_rels.
Proof.
  unfold relations_of_answer. unfold mbind, outcome_mbind, outcome_bind.
  destruct (match r with
            | Ret out => Ret out
            | Raise e => if is_json_decode_error e then Ret (WpFlat []) else Raise e
            end) as [out|]; [|done].
  destruct (unwrap_wp_output api_requester out) as [out'|]; [|done].
  destruct (set_of_wp_output out') as [l|]; [|done].
  intros [= <-]. split; apply Forall_forall; intros rel Hin;
    apply list_elem_of_In, filter_In in Hin as [Hin HP]; [done|].
  apply in_map_iff in Hin as (uri & <- & _). apply last_segment_no_slash.
Qed.

(** X11. [find_top_rels] calls the wiki parser only for the source
    ["wiki"], and the ranker only with its own question and a non-empty list
    of relations that all start with ["P"]; relations that come from the
    wiki parser are cut to what follows their last slash. *)
Theorem ranker_gets_relation_identifiers question entity_ids direction source rel_type
    (s : state) :
  appends (relation_call_ok question source) s
    (find_top_rels question entity_ids (direction, source, rel_type) s).2.
Proof.
  rewrite find_top_rels_run.
  assert (Hrank : forall ex_rels s1,
             Forall (fun rel => startswith "P" rel = true) ex_rels ->
             (source = "wiki" -> Forall (fun rel => has_char slash rel = false) ex_rels) ->
             appends (relation_call_ok question source) s1
               (if truthy ex_rels
                then (Ret (slice_to (rank_rels question ex_rels) (rels_to_leave (self s1))),
                      {| self := self s1;
                         trace := trace s1 ++ [CallRankRels question ex_rels] |})
                else (Ret [], s1)).2).
  { intros ex_rels s1 HP Hslash. destruct ex_rels as [|rel rels]; simpl.
    - reflexivity.
    - exists [CallRankRels question (rel :: rels)]. split; [done|].
      constructor; [|constructor]. simpl. done. }
  destruct (decide (source = "wiki")) as [->|Hsource].
  - rewrite filtered_relations_wiki.
    set (s1 := {| self := self s; trace := _ |}).
    assert (H1 : appends (relation_call_ok question "wiki") s s1).
    { eexists. split; [done|]. by repeat constructor. }
    destruct (relations_of_answer _ _) as [ex_rels|e] eqn:Hrel; [|done].
    apply relations_of_answer_shape in Hrel as [HP Hslash].
    etransitivity; [exact H1|]. by apply Hrank.
  - rewrite filtered_relations_static by done.
    apply Hrank; [|done].
    apply Forall_forall. intros rel Hin.
    by apply list_elem_of_In, filter_In in Hin as [_ HP].
Qed.

(** *** The how-to answer *)

Lemma not_found_is_not_tagged (text : string) : text +:+ "@en" <> "Not Found".
Proof.
  intros H.
  assert (Hat : has_char "@" (text +:+ "@en") = true).
  { rewrite has_char_app. change (has_char "@" "@en") with true. apply orb_true_r. }
  rewrite H in Hat. discriminate.
Qed.

(** X12. [find_answer_wikihow] always returns, and never the empty string.
    It asks the search for five results; without a hit it downloads nothing;
    with hits it downloads the page of the first hit only and answers with
    the stripped text of the first paragraph followed by ["@en"].  The
    answer is ["Not Found"] exactly when there is no hit or the page has no
    paragraph. *)
Theorem how_to_answer_is_never_empty howto_sentence (s : state) :
  let hits := search howto_sentence 5 in
  let tags :=
    match hits with
    | hit :: _ => paragraphs (get_html (article_id hit))
    | [] => []
    end in
  let run := find_answer_wikihow howto_sentence s in
  exists content,
    run.1 = Ret content
    /\ content <> ""
    /\ (content = "Not Found" <-> tags = [])
    /\ (forall text texts, tags = text :: texts -> content = str_strip text +:+ "@en")
    /\ new_events s run.2
         (CallSearch howto_sentence 5
          :: match hits with
             | hit :: _ => [CallGetHtml (article_id hit)]
             | [] => []
             end)
    /\ self run.2 = self s.
Proof.
  intros hits tags run. subst run tags hits.
  unfold find_answer_wikihow, call_search, call_get_html.
  unfold mbind, mret, M_bind, M_ret, bind, ret, emit. simpl.
  destruct (search howto_sentence 5) as [|hit hits]; simpl.
  - exists "Not Found". split; [done|]. split; [done|]. split; [done|].
    split; [done|]. done.
  - destruct (paragraphs (get_html (article_id hit))) as [|text texts]; simpl.
    + exists "Not Found". split; [done|]. split; [done|]. split; [done|].
      split; [done|]. split; [|done]. unfold new_events. simpl. by rewrite <- app_assoc.
    + exists (str_strip text +:+ "@en"). split; [done|].
      split; [destruct (str_strip text); discriminate|].
      split; [split; [by intros ?%not_found_is_not_tagged|done]|].
      split; [by intros ? ? [= -> _]|].
      split; [|done]. unfold new_events. simpl. by rewrite <- app_assoc.
Qed.

(** *** Template selection *)

Lemma one_entry_per_key {V} (d : list (string * V)) (k : string) :
  NoDup (map fst d) ->
  (length (List.filter (fun '(k', _) => (k' =? k)%string) d) <= 1)%nat.
Proof.
  induction d as [|[k' v] d IH]; simpl; [lia|].
  intros [Hnotin Hnodup]%NoDup_cons. specialize (IH Hnodup).
  destruct (String.eqb_spec k' k) as [->|_]; [|done].
  simpl. assert (Hnone : List.filter (fun '(k', _) => (k' =? k)%string) d = []).
  { destruct (List.filter _ d) as [|[k2 v2] rest] eqn:Hf; [done|].
    exfalso. apply Hnotin.
    assert (Hin : In (k2, v2) (List.filter (fun '(k', _) => (k' =? k)%string) d))
      by (rewrite Hf; by left).
    apply filter_In in Hin as [Hin Heq]. apply String.eqb_eq in Heq as ->.
    apply list_elem_of_In, in_map_iff. by exists (k, v2). }
  by rewrite Hnone.
Qed.

(** X13. When the syntax structure is known and the keys of the library are
    distinct (as those of a JSON object are), a single requested template
    number selects at most one template, whatever the numbers of entity and
    type identifiers. *)
Theorem known_structure_selects_one (o : QueryGeneratorBase) (num : string)
    (entity_ids type_ids : list (list string)) :
  NoDup (map fst (template_queries o)) ->
  syntax_structure_known o = true ->
  (length (eligible_templates o [num] entity_ids type_ids) <= 1)%nat.
Proof.
  intros Hkeys Hknown.
  unfold eligible_templates, matching_templates, slot_counts_ok. rewrite Hknown. simpl.
  rewrite app_nil_r.
  etransitivity; [apply filter_length_le|].
  rewrite length_map.
  etransitivity; [|exact (one_entry_per_key (template_queries o) num Hkeys)].
  apply Nat.eq_le_incl. f_equal. apply filter_ext.
  intros [k t]. by rewrite andb_true_r, andb_false_r, orb_false_r.
Qed.

(** X14. On an object that [__init__] has just built, [self.template_nums]
    does not exist: [sparql_template_parser] raises [AttributeError] and
    calls nothing. *)
Theorem parser_needs_template_nums (c : config) (lines_1 lines_2 : list string)
    (queries : list (string * Template)) (events : list event)
    question entity_ids type_ids answer rels rel_dirs :
  let s := {| self := init c lines_1 lines_2 queries; trace := events |} in
  sparql_template_parser question entity_ids type_ids answer rels rel_dirs s
  = (Raise AttributeError, s).
Proof. reflexivity. Qed.

(** *** The NER fallback *)

Lemma last_filter_split {A} (f : A -> bool) (l : list A) :
  match last (List.filter f l) with
  | None => Forall (fun x => f x = false) l
  | Some x =>
      exists pre post, l = pre ++ x :: post /\ f x = true /\
                       Forall (fun y => f y = false) post
  end.
Proof.
  induction l as [|a l IH]; simpl; [constructor|].
  destruct (f a) eqn:Ha.
  - destruct (List.filter f l) as [|b rest] eqn:Hf.
    + simpl. exists [], l. split; [done|]. split; [exact Ha|]. exact IH.
    + change (last (a :: b :: rest)) with (last (b :: rest)).
      destruct (last (b :: rest)) as [x|] eqn:Hl; [|by apply last_None in Hl].
      destruct IH as (pre & post & -> & Hx & Hpost).
      by exists (a :: pre), post.
  - destruct (last (List.filter f l)) as [x|]; [|by constructor].
    destruct IH as (pre & post & -> & Hx & Hpost).
    by exists (a :: pre), post.
Qed.

(** X15. With several NER mentions, the fallback links one mention at
    most: the last one that has a type other than ["misc"], with that type
    list; when every mention has only ["misc"] types it links none.  A
    single mention is linked as it is. *)
Theorem fallback_links_last_typed_mention (entities_from_ner : list string)
    (types_from_ner : list (list ner_type)) :
  let pairs := zip entities_from_ner types_from_ner in
  let m := mentions_to_link entities_from_ner types_from_ner in
  ((length entities_from_ner <= 1)%nat -> m = (entities_from_ner, types_from_ner))
  /\ ((1 < length entities_from_ner)%nat ->
      (m = ([], []) /\ Forall (fun p => any_not_misc p.2 = false) pairs)
      \/ (exists pre entity types post,
             pairs = pre ++ (entity, types) :: post /\
             any_not_misc types = true /\
             Forall (fun p => any_not_misc p.2 = false) post /\
             m = ([entity], [types]))).
Proof.
  intros pairs m. subst m. unfold mentions_to_link, len. split.
  - intros Hlen. destruct (1 <? Z.of_nat (length entities_from_ner)) eqn:E; [|done].
    apply Z.ltb_lt in E. lia.
  - intros Hlen. destruct (1 <? Z.of_nat (length entities_from_ner)) eqn:E.
    2:{ apply Z.ltb_ge in E. lia. }
    fold pairs.
    pose proof (last_filter_split (fun '(entity, types) => any_not_misc types) pairs) as H.
    destruct (last (List.filter _ pairs)) as [[entity types]|].
    + right. destruct H as (pre & post & Hsplit & Hx & Hpost).
      exists pre, entity, types, post. split; [done|]. split; [done|]. split; [|done].
      eapply Forall_impl; [exact Hpost|]. by intros [? ?].
    + left. split; [done|]. eapply Forall_impl; [exact H|]. by intros [? ?].
Qed.

Lemma get_entity_ids_entities_state entities template_found question entity_types
    (s : state) :
  (get_entity_ids entities "entities" template_found (Some question) entity_types s).2
  = {| self := self s;
       trace := trace s ++ [CallLinkerEntities [map str_lower entities] [entity_types]
                              [[str_lower question]]] |}.
Proof.
  unfold get_entity_ids, try_except_json, lower_of, call_linker_entities.
  unfold mbind, mret, M_bind, M_ret, bind, ret, lift, emit, get_self. simpl.
  destruct (linker_entities _ _ _) as [out|e]; simpl.
  - destruct (el_output_truthy out); simpl; [|done].
    by destruct (entity_ids_of_output _ out).
  - by destruct (is_json_decode_error e).
Qed.

(** X16. The NER fallback of [find_candidate_answers] first calls the
    entity linker, with the mentions chosen as above and the normalised
    question in lower case, and then only [query_parser]: without relations
    and type identifiers, with the caller's answer information, and with
    three lists of entity identifiers at most unless the syntax structure is
    known. *)
Theorem fallback_calls question question_sanitized template_types_ entities_from_ner
    types_from_ner answer (s : state) :
  let m := mentions_to_link entities_from_ner types_from_ner in
  let run :=
    ner_path question question_sanitized template_types_ entities_from_ner types_from_ner
      answer s in
  exists events,
    new_events s run.2
      (CallLinkerEntities [map str_lower m.1] [Some m.2] [[str_lower question]] :: events)
    /\ Forall (fallback_query (self s) question_sanitized answer) events.
Proof.
  intros m run. subst run. unfold ner_path.
  change (if 1 <? len entities_from_ner then _ else _) with m.
  destruct m as [entities types]. simpl fst. simpl snd.
  rewrite run_bind.
  pose proof (get_entity_ids_entities_state entities None question (Some types) s) as Hs1.
  destruct (get_entity_ids entities "entities" None (Some question) (Some types) s)
    as [[entity_ids|e] s1]; simpl in Hs1; subst s1; cbv beta iota.
  2:{ exists []. split; [done|constructor]. }
  rewrite run_bind, run_set_template_nums. cbv beta iota.
  rewrite run_bind. change (get_self ?x) with (Ret (self x), x). cbv beta iota.
  simpl self.
  match goal with
  | |- context [sparql_template_parser _ ?ids _ _ _ _ ?s2] =>
      destruct (appends_sparql_template_parser
                  (fallback_query (self s) question_sanitized answer)
                  question_sanitized ids [] answer None None) with s2
        as (events & Hev & HP)
  end.
  - intros t sel. eexists t, sel, _. split; [done|].
    simpl. intros ->. simpl.
    pose proof (slice_to_length entity_ids 3 ltac:(lia)). lia.
  - exists events. split; [|done].
    unfold new_events in *. rewrite Hev. simpl. by rewrite <- app_assoc.
Qed.

(** *** The template answer *)

Lemma bind_returns {A B} (m : M A) (k : A -> M B) (s : state) (b : B) :
  (mbind k m s).1 = Ret b -> exists a s1, m s = (Ret a, s1) /\ (k a s1).1 = Ret b.
Proof.
  rewrite run_bind. destruct (m s) as [[a|e] s1]; [|done]. by exists a, s1.
Qed.

(** X23. Whenever [find_candidate_answers] returns, on whichever path, the
    second component of its result is the [template_answer] the template
    matcher gave for the sanitized question and the NER mentions. *)
Theorem template_answer_is_the_matchers question question_sanitized template_types_
    entities_from_ner types_from_ner q_type_flag (s : state) candidate_outputs answer :
  (find_candidate_answers question question_sanitized template_types_ entities_from_ner
     types_from_ner q_type_flag s).1 = Ret (candidate_outputs, answer) ->
  answer = template_answer (template_matcher question_sanitized entities_from_ner).
Proof.
  unfold find_candidate_answers.
  rewrite run_bind, run_set_template_nums. cbv beta iota.
  rewrite run_bind, run_call_template_matcher. cbv beta iota.
  rewrite run_bind, run_set_template_nums. cbv beta iota.
  intros ([co types] & s1 & _ & H1)%bind_returns.
  apply bind_returns in H1 as (co' & s2 & _ & H2).
  by injection H2.
Qed.

(** *** Which templates reach [query_parser] *)

Lemma resolved_come_from (o : QueryGeneratorBase) (alts pre : list (string * string))
    (attempts : list (Template * string)) :
  resolved o pre attempts -> pre ⊆ alts ->
  Forall (fun att => exists alt, alt ∈ alts /\ resolve_alternative o alt = Some att) attempts.
Proof.
  induction 1 as [|alt att pre attempts Hres _ IH]; intros Hsub; constructor.
  - exists alt. split; [|done]. apply Hsub. by left.
  - apply IH. intros x Hx. apply Hsub. by right.
Qed.

(** C8. The templates that [sparql_template_parser] binds with their own
    slot-selection spec are eligible templates: the library holds them under
    a requested number and, unless the syntax structure is known, their
    [entities_and_types_num] equals [[len(entity_ids), len(type_ids)]].
    Every other call of [query_parser] is for an alternative of the first
    eligible template, looked up in the library by its number alone, and is
    made only without relations from a template. *)
Theorem slot_counts_restrict_primary_templates question entity_ids type_ids answer rels
    rel_dirs (s : state) nums :
  template_nums (self s) = Some nums ->
  let o := self s in
  let templates := eligible_templates o (iter_template_types nums) entity_ids type_ids in
  let alts :=
    match templates with
    | first_template :: _ => alternative_templates first_template
    | [] => []
    end in
  let ev := attempt_event question entity_ids type_ids rels answer in
  let run := sparql_template_parser question entity_ids type_ids answer rels rel_dirs s in
  (forall template,
      template ∈ templates <->
      (exists wanted num,
          wanted ∈ iter_template_types nums /\ (num, template) ∈ template_queries o /\
          (if syntax_structure_known o then num = wanted
           else template_num template = wanted))
      /\ (syntax_structure_known o = true
          \/ [len entity_ids; len type_ids] = entities_and_types_num template))
  /\ exists primary alternatives,
       new_events s run.2 (map ev (map primary_attempt primary) ++ map ev alternatives)
       /\ primary ⊆ templates
       /\ Forall (fun att => exists alt,
                      alt ∈ alts /\ resolve_alternative o alt = Some att) alternatives
       /\ (alternatives <> [] -> rels = None /\ use_alt_templates o = true).
Proof.
  intros Hnums o templates alts ev run.
  split; [intros template; apply eligible_iff_slot_counts|].
  subst run. unfold sparql_template_parser.
  rewrite run_bind. change (get_self s) with (Ret (self s), s). cbv beta iota.
  rewrite Hnums. fold o. rewrite run_bind, run_ret. cbv beta iota. fold templates.
  assert (Hnone : forall s0 : state,
             exists primary alternatives : list _,
               new_events s0 s0 (map ev (map primary_attempt primary) ++ map ev alternatives)
               /\ primary ⊆ templates
               /\ Forall (fun att => exists alt,
                              alt ∈ alts /\ resolve_alternative o alt = Some att)
                    alternatives
               /\ (alternatives <> [] -> rels = None /\ use_alt_templates o = true)).
  { intros s0. exists [], []. unfold new_events. simpl. rewrite app_nil_r.
    split; [done|]. split; [by intros x ?%elem_of_nil|]. split; [constructor|done]. }
  subst alts. destruct templates as [|first_template rest] eqn:Ht; [apply Hnone|].
  destruct rels as [rels|].
  - destruct (select_by_rel_dirs (first_template :: rest) rel_dirs) as [t|] eqn:Hsel;
      [|apply Hnone].
    apply select_by_rel_dirs_elem in Hsel.
    exists [t], []. simpl. split; [done|].
    split; [by intros x ->%list_elem_of_singleton|]. split; [constructor|done].
  - rewrite run_bind.
    destruct (try_templates_run question entity_ids type_ids None answer
                (first_template :: rest) [] s)
      as [(pre & x & post & Hsplit & Hpre & Hx & Hrun) | (Hall & Hrun)].
    + rewrite Hrun. cbv beta iota.
      assert (Htried : exists tried,
                 pre ++ [x] = map primary_attempt tried /\ tried ⊆ first_template :: rest).
      { clear Hrun Hpre Hx. revert pre Hsplit.
        generalize (first_template :: rest) as l.
        induction l as [|t l IH]; intros pre Hsplit.
        - by destruct pre.
        - destruct pre as [|p pre]; simpl in Hsplit; injection Hsplit as Hp Hl.
          + exists [t]. simpl. split; [by rewrite Hp|].
            intros y ->%list_elem_of_singleton. by left.
          + destruct (IH pre Hl) as (tried & Heq & Hsub).
            exists (t :: tried). simpl. split; [by rewrite Hp, Heq|].
            intros y [->|Hy]%elem_of_cons; [by left|right; by apply Hsub]. }
      destruct Htried as (tried & Heq & Hsub).
      exists tried, []. simpl. rewrite app_nil_r, <- Heq.
      split; [done|]. split; [done|]. split; [constructor|done].
    + rewrite Hrun. cbv beta iota.
      change (negb (truthy (@nil candidate))) with true. rewrite andb_true_l.
      destruct (use_alt_templates o) eqn:Halt; cbv iota.
      2:{ exists (first_template :: rest), []. simpl. rewrite app_nil_r.
          split; [done|]. split; [done|]. split; [constructor|done]. }
      rewrite run_bind.
      match goal with
      | |- context [try_alternatives _ _ _ _ _ _ _ ?s1] =>
          destruct (try_alternatives_run question entity_ids type_ids None answer
                      (alternative_templates first_template) [] s1)
            as [(pre & alt & post & pre' & x & Hsplit & Hpre & Hx & Hempty & Hans & Hrun')
               | [(attempts & Hres & Hempty & Hrun')
               | (pre & alt & post & pre' & Hsplit & Hpre & Hx & Hempty & Hrun')]];
            simpl self in *; rewrite Hrun'; cbv beta iota
      end.
      * exists (first_template :: rest), (pre' ++ [x]).
        split; [unfold new_events; simpl; by rewrite <- !app_assoc|].
        split; [done|]. split; [|done].
        apply (resolved_come_from o _ (pre ++ [alt])).
        -- apply Forall2_app; [done|by repeat constructor].
        -- rewrite Hsplit. intros y [Hy|Hy%list_elem_of_singleton]%elem_of_app.
           ++ apply elem_of_app. by left.
           ++ subst y. apply elem_of_app. right. by left.
      * exists (first_template :: rest), attempts.
        split; [unfold new_events; simpl; by rewrite <- !app_assoc|].
        split; [done|]. split; [|done].
        by apply (resolved_come_from o _ (alternative_templates first_template)).
      * exists (first_template :: rest), pre'.
        split; [unfold new_events; simpl; by rewrite <- !app_assoc|].
        split; [done|]. split; [|done].
        apply (resolved_come_from o _ pre); [done|].
        rewrite Hsplit. intros y Hy. apply elem_of_app. by left.
Qed.

End Footprint.

(** ** More on the skill selector *)

Section SkillSelectorRules.
Import Selector.
Variable str_lower : string -> string.
Variables CAN_NOT_CONTINUE CAN_CONTINUE MUST_CONTINUE : string.

Abbreviation skills_of :=
  (Selector.skills_for_dialog str_lower CAN_NOT_CONTINUE CAN_CONTINUE MUST_CONTINUE).
Abbreviation rules :=
  (Selector.rule_skills str_lower CAN_NOT_CONTINUE CAN_CONTINUE MUST_CONTINUE).
Abbreviation regular :=
  (Selector.regular_skills CAN_NOT_CONTINUE CAN_CONTINUE MUST_CONTINUE).
Abbreviation select := (Selector.call str_lower CAN_NOT_CONTINUE CAN_CONTINUE MUST_CONTINUE).

#[local] Arguments item_from_end : simpl never.
#[local] Arguments item_last : simpl never.

(** What [skills_for_dialog] computes for a dialog with an utterance. *)
Lemma skills_of_run (dialog : dialog) (last_uttr : utterance) :
  last (utterances dialog) = Some last_uttr ->
  exists prev_user_uttr_hyp prev_bot_uttr,
    skills_of dialog
    = Ret (list_of_set (rules dialog last_uttr prev_user_uttr_hyp prev_bot_uttr
                        ++ ["dummy_skill"]))
    /\ ((length (utterances dialog) < 3)%nat -> prev_user_uttr_hyp = []).
Proof.
  intros Hlast. unfold Selector.skills_for_dialog.
  unfold item_last at 1. rewrite Hlast. simpl.
  assert (Hne : (1 <= length (utterances dialog))%nat).
  { destruct (utterances dialog); [done|simpl; lia]. }
  destruct (decide (3 <= length (utterances dialog))%nat) as [H3|H3].
  - rewrite (bool_decide_true _ H3).
    destruct (item_from_end_in_range 2 _ H3) as [u3 ->]. simpl.
    assert (H2 : (2 <= length (utterances dialog))%nat) by lia.
    rewrite (bool_decide_true _ H2).
    destruct (item_from_end_in_range 1 _ H2) as [u2 ->]. simpl.
    eexists _, _. split; [done|]. lia.
  - rewrite (bool_decide_false _ H3). simpl.
    destruct (decide (2 <= length (utterances dialog))%nat) as [H2|H2].
    + rewrite (bool_decide_true _ H2).
      destruct (item_from_end_in_range 1 _ H2) as [u2 ->]. simpl.
      eexists _, _. split; done.
    + rewrite (bool_decide_false _ H2). simpl. eexists _, _. split; done.
Qed.

(** X17. The [/new_persona] command comes before every other rule: when
    the text of the last utterance holds it, the skills are
    ["personality_catcher"] and ["dummy_skill"] and no other, whatever the
    annotations say. *)
Theorem new_persona_comes_first (dialog : dialog) (last_uttr : utterance) :
  last (utterances dialog) = Some last_uttr ->
  contains "/new_persona" (text last_uttr) = true ->
  exists skills,
    skills_of dialog = Ret skills
    /\ forall skill, skill ∈ skills <-> skill = "personality_catcher" \/ skill = "dummy_skill".
Proof.
  intros Hlast Hcmd.
  destruct (skills_of_run dialog last_uttr Hlast) as (hyps & bot & -> & _).
  eexists. split; [done|]. intros skill.
  rewrite list_of_set_elem. unfold Selector.rule_skills. rewrite Hcmd. simpl.
  rewrite !elem_of_cons, elem_of_nil. tauto.
Qed.

Lemma regular_keeps_program_y n_utterances about_movies about_music about_books
    about_weather (prev_user_uttr_hyp : list hypothesis) :
  "program_y" ∈ regular n_utterances about_movies about_music about_books about_weather
                 prev_user_uttr_hyp.
Proof.
  unfold Selector.regular_skills.
  match goal with
  | |- _ ∈ fold_left ?f _ ?init =>
      assert (Hfold : forall l acc, "program_y" ∈ acc -> "program_y" ∈ fold_left f l acc)
  end.
  { induction l as [|hyp l IH]; intros acc Hacc; simpl; [done|].
    apply IH. case_bool_decide; [|done]. apply elem_of_app. by left. }
  apply Hfold.
  repeat match goal with
         | |- _ ∈ (if ?b then _ else _) => destruct b
         | |- _ ∈ _ ++ _ => apply elem_of_app; left
         end; by left.
Qed.

Lemma two_members_length {A} (l : list A) (x y : A) :
  NoDup l -> x ∈ l -> y ∈ l -> x <> y -> (2 <= length l)%nat.
Proof.
  intros Hl Hx Hy Hne.
  change 2%nat with (length [x; y]).
  apply submseteq_length, NoDup_submseteq.
  - apply NoDup_cons. split; [by intros Hxy%list_elem_of_singleton|].
    apply NoDup_singleton.
  - intros z [->|Hz%list_elem_of_singleton]%elem_of_cons; [done|by subst z].
Qed.

(** X18. ["dummy_skill"] is never selected alone: every skill list that
    [__call__] builds holds a second skill. *)
Theorem dummy_skill_is_never_alone (dialog : dialog) (skills : list string) :
  skills_of dialog = Ret skills -> (2 <= length skills)%nat.
Proof.
  intros Hrun.
  destruct (last (utterances dialog)) as [last_uttr|] eqn:Hlast.
  2:{ unfold Selector.skills_for_dialog, item_last in Hrun. by rewrite Hlast in Hrun. }
  destruct (skills_of_run dialog last_uttr Hlast) as (hyps & bot & Heq & _).
  rewrite Heq in Hrun. injection Hrun as <-.
  assert (Hother : exists skill,
             skill <> "dummy_skill" /\ skill ∈ rules dialog last_uttr hyps bot).
  { unfold Selector.rule_skills.
    repeat match goal with
           | |- context [if ?b then _ else _] => destruct b
           end;
      try (eexists; split; [|by left]; done).
    exists "program_y". split; [done|]. apply regular_keeps_program_y. }
  destruct Hother as (skill & Hne & Hin).
  apply (two_members_length _ skill "dummy_skill"); [apply list_of_set_nodup|..|done].
  - apply list_of_set_elem, elem_of_app. by left.
  - apply list_of_set_elem, elem_of_app. right. by left.
Qed.

Lemma regular_greeting_is_heard about_movies about_music about_books about_weather :
  "misheard_asr" ∉ regular 1 about_movies about_music about_books about_weather [].
Proof.
  unfold Selector.regular_skills. cbn [fold_left].
  rewrite (bool_decide_false (7 < 1)%nat) by lia.
  rewrite (bool_decide_false (2 < 1)%nat) by lia. rewrite andb_false_r.
  destruct about_movies, about_books, about_weather;
    rewrite ?elem_of_app, !elem_of_cons, elem_of_nil; intuition discriminate.
Qed.

(** X19. The first utterance of a dialog is never sent to ["misheard_asr"],
    whatever the confidence of the speech recognition. *)
Theorem greeting_is_never_misheard (dialog : dialog) :
  length (utterances dialog) = 1%nat ->
  exists skills, skills_of dialog = Ret skills /\ "misheard_asr" ∉ skills.
Proof.
  intros Hlen.
  destruct (utterances dialog) as [|last_uttr [|? ?]] eqn:Hu; try done.
  destruct (skills_of_run dialog last_uttr) as (hyps & bot & -> & Hhyps);
    [by rewrite Hu|].
  rewrite Hu in Hhyps. rewrite Hhyps by (simpl; lia).
  eexists. split; [done|].
  rewrite list_of_set_elem, elem_of_app, list_elem_of_singleton.
  intros [Hin|?]; [|done]. revert Hin.
  unfold Selector.rule_skills. rewrite Hu. cbn [length].
  rewrite (bool_decide_false (1 < 1)%nat) by lia. rewrite andb_false_l.
  repeat match goal with
         | |- context [if ?b then _ else _] => destruct b
         end;
    try (rewrite ?elem_of_app, !elem_of_cons, elem_of_nil; intuition discriminate).
  apply regular_greeting_is_heard.
Qed.

Lemma skills_of_raise (dialog : dialog) (e : exn) :
  skills_of dialog = Raise e -> e = IndexError.
Proof.
  intros Hrun. destruct (last (utterances dialog)) as [last_uttr|] eqn:Hlast.
  - destruct (skills_of_run dialog last_uttr Hlast) as (hyps & bot & Heq & _).
    by rewrite Heq in Hrun.
  - unfold Selector.skills_for_dialog, item_last in Hrun. rewrite Hlast in Hrun.
    by injection Hrun.
Qed.

Lemma skills_of_silent (dialog : dialog) :
  utterances dialog = [] -> skills_of dialog = Raise IndexError.
Proof. intros Hu. unfold Selector.skills_for_dialog, item_last. by rewrite Hu. Qed.

(** X20. A dialog without utterances makes [__call__] raise [IndexError]
    for the whole batch: no skill list is returned for the other dialogs
    either. *)
Theorem silent_dialog_fails_the_batch (states_batch : list dialog) :
  Exists (fun dialog => utterances dialog = []) states_batch ->
  select states_batch = Raise IndexError.
Proof.
  unfold Selector.call.
  induction states_batch as [|dialog rest IH]; intros Hex; [by apply Exists_nil in Hex|].
  simpl. destruct (skills_of dialog) as [skills|e] eqn:Hd.
  - apply Exists_cons in Hex as [Hsilent|Hrest].
    + by rewrite (skills_of_silent _ Hsilent) in Hd.
    + by rewrite (IH Hrest).
  - by rewrite (skills_of_raise _ _ Hd).
Qed.

(** X21. [_is_question] raises [IndexError] on an empty token list;
    otherwise it holds exactly when the first token is one of the fifteen
    auxiliary verbs or some token is one of the nine question words. *)
Theorem is_question_rule :
  _is_question [] = Raise IndexError
  /\ forall token tokens,
       exists b,
         _is_question (token :: tokens) = Ret b
         /\ (b = true <->
             token ∈ first_question_words
             \/ exists word, word ∈ token :: tokens /\ word ∈ wh_words).
Proof.
  split; [done|]. intros token tokens. eexists. split; [reflexivity|].
  rewrite orb_true_iff, !bool_decide_eq_true.
  apply or_iff_compat_l. split.
  - intros Hsize. apply size_pos_elem_of in Hsize as [word Hword].
    apply elem_of_intersection in Hword as [Hin Hwh].
    exists word. split; [|done]. by apply elem_of_list_to_set in Hin.
  - intros (word & Hin & Hwh).
    assert (Hne : size ((list_to_set (token :: tokens) : gset string) ∩ wh_words) <> 0%nat).
    { apply size_non_empty_iff. intros Hempty.
      apply (not_elem_of_empty (C:=gset string) word). rewrite <- Hempty.
      apply elem_of_intersection. split; [|done]. by apply elem_of_list_to_set. }
    lia.
Qed.

(** X22. In the branch for regular utterances, every hypothesis of the
    previous user utterance whose [can_continue] is [CAN_CONTINUE] or
    [MUST_CONTINUE] has its skill selected, and the five general skills are
    always selected. *)
Theorem continuing_skills_are_kept n_utterances about_movies about_music about_books
    about_weather (prev_user_uttr_hyp : list hypothesis) :
  let skills :=
    regular n_utterances about_movies about_music about_books about_weather
      prev_user_uttr_hyp in
  (forall hyp,
      hyp ∈ prev_user_uttr_hyp ->
      can_continue hyp = Some CAN_CONTINUE \/ can_continue hyp = Some MUST_CONTINUE ->
      skill_name hyp ∈ skills)
  /\ Forall (fun skill => skill ∈ skills)
       ["program_y"; "cobotqa"; "alice"; "christmas_new_year_skill"; "personal_info_skill"].
Proof.
  intros skills. subst skills. unfold Selector.regular_skills.
  match goal with
  | |- context [fold_left ?f _ ?init] =>
      assert (Hkeep : forall l acc skill, skill ∈ acc -> skill ∈ fold_left f l acc);
      [|assert (Hadd : forall l acc hyp,
                   hyp ∈ l ->
                   can_continue hyp = Some CAN_CONTINUE
                   \/ can_continue hyp = Some MUST_CONTINUE ->
                   skill_name hyp ∈ fold_left f l acc)]
  end.
  { induction l as [|hyp l IH]; intros acc skill Hacc; simpl; [done|].
    apply IH. case_bool_decide; [|done]. apply elem_of_app. by left. }
  { induction l as [|hyp' l IH]; intros acc hyp Hin Hc; [by apply elem_of_nil in Hin|].
    simpl. apply elem_of_cons in Hin as [->|Hin]; [|by apply IH].
    apply Hkeep. rewrite bool_decide_true.
    - apply elem_of_app. right. by left.
    - destruct Hc as [-> | ->]; simpl; set_solver. }
  split; [intros hyp Hin Hc; by apply Hadd|].
  repeat constructor; apply Hkeep;
    repeat match goal with
           | |- _ ∈ (if ?b then _ else _) => destruct b
           | |- _ ∈ _ ++ _ => apply elem_of_app; left
           end;
    rewrite !elem_of_cons; tauto.
Qed.

End SkillSelectorRules.

(** ** The further properties on concrete inputs *)

Lemma known_structure_selects_one_witness :
  NoDup (map fst (template_queries Stub.known_structure)) /\
  syntax_structure_known Stub.known_structure = true /\
  (length (eligible_templates Stub.known_structure ["2"] [["Q76"]; ["Q30"]] []) <= 1)%nat.
Proof.
  assert (Hkeys : NoDup (map fst (template_queries Stub.known_structure))).
  { apply NoDup_cons. split; [by intros ?%list_elem_of_singleton|apply NoDup_singleton]. }
  split; [exact Hkeys|]. split; [reflexivity|].
  exact (known_structure_selects_one Stub.known_structure "2" [["Q76"]; ["Q30"]] []
           Hkeys eq_refl).
Defined.

Lemma how_to_single_candidate_witness :
  entities_from_template
    (template_matcher (Collaborators := Stub.how_to_services) "how to relax" []) <> [] /\
  exists content events,
    (find_candidate_answers (services := Stub.how_to_services) "how to relax"
       "how to relax" (TypeList ["7"]) [] [] "" Stub.fresh).1
    = Ret ([[Text "PHOW"; Text content; Number 1]], "")
    /\ content <> ""
    /\ (content = "Not Found" \/
        exists text, content = str_strip (Collaborators := Stub.how_to_services) text
                                 +:+ "@en")
    /\ new_events Stub.fresh
         (find_candidate_answers (services := Stub.how_to_services) "how to relax"
            "how to relax" (TypeList ["7"]) [] [] "" Stub.fresh).2
         (CallTemplateMatcher "how to relax" [] :: events)
    /\ forallb how_to_event events = true.
Proof.
  split; [discriminate|].
  apply (how_to_single_candidate (services := Stub.how_to_services) "how to relax"
           "how to relax" (TypeList ["7"]) [] [] "" Stub.fresh).
  - discriminate.
  - by exists [], [].
Defined.

Lemma template_answer_is_the_matchers_witness :
  (find_candidate_answers (services := Stub.born_services) "where was justin born"
     "where was justin born" (TypeList ["7"]) ["justin"] [[Stub.per]] "" Stub.fresh).1
  = Ret (Stub.answer, "") /\
  "" = template_answer
         (template_matcher (Collaborators := Stub.born_services) "where was justin born"
            ["justin"]).
Proof.
  assert (H : (find_candidate_answers (services := Stub.born_services)
                 "where was justin born" "where was justin born" (TypeList ["7"])
                 ["justin"] [[Stub.per]] "" Stub.fresh).1 = Ret (Stub.answer, ""))
    by reflexivity.
  split; [exact H|].
  exact (template_answer_is_the_matchers (services := Stub.born_services) _ _ _ _ _ _ _ _ _
           H).
Defined.

Lemma new_persona_comes_first_witness :
  last (Selector.utterances SelectorStub.new_persona)
  = Some (SelectorStub.said "/new_persona pirate" "very_low") /\
  contains "/new_persona" "/new_persona pirate" = true /\
  exists skills,
    Selector.skills_for_dialog Stub.lower "no" "can" "must" SelectorStub.new_persona
    = Ret skills
    /\ forall skill, skill ∈ skills <-> skill = "personality_catcher" \/ skill = "dummy_skill".
Proof.
  split; [reflexivity|]. split; [reflexivity|].
  exact (new_persona_comes_first Stub.lower "no" "can" "must" SelectorStub.new_persona
           (SelectorStub.said "/new_persona pirate" "very_low") eq_refl eq_refl).
Defined.

Lemma greeting_is_never_misheard_witness :
  length (Selector.utterances SelectorStub.greeting) = 1%nat /\
  exists skills,
    Selector.skills_for_dialog Stub.lower "no" "can" "must" SelectorStub.greeting
    = Ret skills
    /\ "misheard_asr" ∉ skills.
Proof.
  split; [reflexivity|].
  exact (greeting_is_never_misheard Stub.lower "no" "can" "must" SelectorStub.greeting
           eq_refl).
Defined.

Lemma dummy_skill_is_never_alone_witness :
  exists skills,
    Selector.skills_for_dialog Stub.lower "no" "can" "must" SelectorStub.barely_heard
    = Ret skills
    /\ (2 <= length skills)%nat.
Proof.
  destruct (skills_for_dialog_returns Stub.lower "no" "can" "must"
              SelectorStub.barely_heard) as [skills Hrun].
  { discriminate. }
  exists skills. split; [exact Hrun|].
  exact (dummy_skill_is_never_alone Stub.lower "no" "can" "must"
           SelectorStub.barely_heard skills Hrun).
Defined.

Lemma silent_dialog_fails_the_batch_witness :
  Exists (fun dialog => Selector.utterances dialog = [])
    [SelectorStub.greeting; SelectorStub.silent] /\
  Selector.call Stub.lower "no" "can" "must" [SelectorStub.greeting; SelectorStub.silent]
  = Raise IndexError.
Proof.
  assert (H : Exists (fun dialog => Selector.utterances dialog = [])
                [SelectorStub.greeting; SelectorStub.silent]).
  { apply Exists_cons_tl, Exists_cons_hd. reflexivity. }
  split; [exact H|].
  exact (silent_dialog_fails_the_batch Stub.lower "no" "can" "must" _ H).
Defined.

(** ** Where the specification says more than the code does *)

(** With a relation-direction signature but no relations from a template,
    [sparql_template_parser] takes the branch of line 305: it binds both
    templates, the first of which has other relation directions, and then an
    alternative. *)
Lemma signature_without_relations_is_ignored :
  rel_dirs Stub.forward <> ["backw"] /\
  trace (sparql_template_parser (services := Stub.fallback_services) "where was he born"
           [["Q76"]] [] (TypeFlag "") None (Some ["backw"]) Stub.ready).2
  = [ CallQueryParser "where was he born" Stub.forward "1 0" [["Q76"]] [] None (TypeFlag "");
      CallQueryParser "where was he born" Stub.backward "1 0" [["Q76"]] [] None (TypeFlag "");
      CallQueryParser "where was he born" Stub.backward "alt" [["Q76"]] [] None (TypeFlag "") ].
Proof. split; [discriminate|reflexivity]. Qed.

(** With [rels_to_leave = -1] the slice [rels_with_scores[:-1]] drops the
    last of the two ranked relations and keeps one. *)
Lemma negative_limit_returns_more :
  rels_to_leave (self Stub.negative_limit) = -1 /\
  (find_top_rels (services := Stub.born_services) "where was he born" []
     ("forw", "rank_list_1", "direct") Stub.negative_limit).1 = Ret [("P17", 1%Q)] /\
  ~ len [("P17", 1%Q)] <= rels_to_leave (self Stub.negative_limit).
Proof. split; [reflexivity|]. split; [reflexivity|]. by vm_compute. Qed.

(** An alternative template that has the requested template number and is
    declared for two entities is handed to [query_parser] with one entity
    identifier list, although the syntax structure is not known. *)
Lemma alternative_skips_slot_counts :
  syntax_structure_known (self Stub.mixed_ready) = false /\
  template_num Stub.two_slots = "7" /\
  entities_and_types_num Stub.two_slots <> [len [["Q76"]]; len (@nil (list string))] /\
  trace (sparql_template_parser (services := Stub.fallback_services) "where was he born"
           [["Q76"]] [] (TypeFlag "") None None Stub.mixed_ready).2
  = [ CallQueryParser "where was he born" Stub.forward "1 0" [["Q76"]] [] None (TypeFlag "");
      CallQueryParser "where was he born" Stub.two_slots "alt" [["Q76"]] [] None
        (TypeFlag "") ].
Proof.
  split; [reflexivity|]. split; [reflexivity|]. split; [discriminate|reflexivity].
Qed.

Lemma slot_counts_restrict_primary_templates_witness :
  template_nums (self Stub.mixed_ready) = Some (TypeList ["7"]) /\
  (Stub.forward ∈ eligible_templates (self Stub.mixed_ready) ["7"] [["Q76"]] [] <->
   (exists wanted num,
       wanted ∈ ["7"] /\ (num, Stub.forward) ∈ template_queries (self Stub.mixed_ready) /\
       (if syntax_structure_known (self Stub.mixed_ready) then num = wanted
        else template_num Stub.forward = wanted))
   /\ (syntax_structure_known (self Stub.mixed_ready) = true
       \/ [len [["Q76"]]; len (@nil (list string))] = entities_and_types_num Stub.forward)).
Proof.
  split; [reflexivity|].
  exact (proj1 (slot_counts_restrict_primary_templates
                  (services := Stub.fallback_services) "where was he born" [["Q76"]] []
                  (TypeFlag "") None None Stub.mixed_ready (TypeList ["7"]) eq_refl)
           Stub.forward).
Defined.
